(** * Task & Reward Tracker: the task-completion and reward-ledger state machine

    A shallow embedding of the request handlers of the two server variants of
    the repository:

    - [Server]: [src/server/index.js] (tasks carry a [userId]; creation
      requires one strictly positive reward; [getOrCreateUser] normalises the
      counters with [Number(x) || 0]);
    - [Api]: the second variant (tasks carry a [name] and no [userId];
      creation accepts any rewards; [getOrCreateUser] returns the stored
      document as it is).

    Modelling conventions.

    - A JavaScript number is an exact integer or [NaN]; fractional and
      infinite doubles and the rounding of doubles beyond 2^53 are outside
      the model.  A string is the sequence of the bytes of its UTF-8
      encoding.  A request field is a scalar JSON value, or [VUndefined]
      when the field is missing.
    - [StringToNumber], the conversion of a string to a number that
      [Number(s)], [s <= 0] and [b < s] perform, is a parameter of the
      development: every result holds for any such function.
    - The two collections are the state of a small state-and-exception monad
      [M]: [users] is a finite map keyed by [_id], [tasks] a list in
      insertion order.  [insertOne] throws on a duplicate [_id], [$inc]
      throws on a non-numeric operand and creates a missing field, an
      upsert creates a document that holds only the incremented fields, and
      [deleteMany] with the empty filter reports -1 as its [deletedCount].
      Failures of the transport are not modelled.
    - [uuidv4()] and [new Date().toISOString()] are inputs of the handlers
      that call them. *)

From stdpp Require Import base option list gmap strings.
From Stdlib Require Import ZArith Ascii String Lia.

Local Open Scope string_scope.
Local Open Scope Z_scope.

(** ** JavaScript values *)

Module JS.

Inductive num : Type :=
| NaN
| Int (z : Z).

Inductive value : Type :=
| VUndefined
| VNull
| VBool (b : bool)
| VNum (n : num)
| VStr (s : string).

#[global] Instance num_eq_dec : EqDecision num.
Proof. solve_decision. Defined.

#[global] Instance value_eq_dec : EqDecision value.
Proof. solve_decision. Defined.

(** [ToBoolean]: what [!x], [x || y] and [if (x)] test. *)
Definition truthy (v : value) : bool :=
  match v with
  | VUndefined | VNull => false
  | VBool b => b
  | VNum NaN => false
  | VNum (Int z) => negb (z =? 0)
  | VStr s => negb (String.eqb s "")
  end.

(** *** [parseInt(string)] with no radix argument *)

(** The white space that [parseInt] skips ([StrWhiteSpaceChar]): TAB, LF,
    VT, FF, CR and SP, which take one byte, *)
Definition is_ws (c : ascii) : bool :=
  let n := nat_of_ascii c in
  ((9 <=? n) && (n <=? 13))%nat || (n =? 32)%nat.

(** U+00A0, which takes two, *)
Definition is_ws2 (c1 c2 : ascii) : bool :=
  ((nat_of_ascii c1 =? 194) && (nat_of_ascii c2 =? 160))%nat.

(** and U+1680, U+2000 to U+200A, U+2028, U+2029, U+202F, U+205F, U+3000
    and U+FEFF, which take three. *)
Definition is_ws3 (c1 c2 c3 : ascii) : bool :=
  let a := nat_of_ascii c1 in
  let b := nat_of_ascii c2 in
  let c := nat_of_ascii c3 in
  ((a =? 225) && (b =? 154) && (c =? 128)
   || (a =? 226) && (b =? 128)
      && ((128 <=? c) && (c <=? 138) || (c =? 168) || (c =? 169) || (c =? 175))
   || (a =? 226) && (b =? 129) && (c =? 159)
   || (a =? 227) && (b =? 128) && (c =? 128)
   || (a =? 239) && (b =? 187) && (c =? 191))%nat.

Fixpoint skip_ws (s : string) : string :=
  match s with
  | String c s1 =>
      if is_ws c then skip_ws s1
      else
        match s1 with
        | String c1 s2 =>
            if is_ws2 c c1 then skip_ws s2
            else
              match s2 with
              | String c2 s3 => if is_ws3 c c1 c2 then skip_ws s3 else s
              | EmptyString => s
              end
        | EmptyString => s
        end
  | EmptyString => EmptyString
  end.

Definition digit_of (radix : Z) (c : ascii) : option Z :=
  let n := Z.of_nat (nat_of_ascii c) in
  let d :=
    if (48 <=? n) && (n <=? 57) then Some (n - 48)
    else if (97 <=? n) && (n <=? 122) then Some (n - 87)
    else if (65 <=? n) && (n <=? 90) then Some (n - 55)
    else None in
  match d with
  | Some k => if k <? radix then Some k else None
  | None => None
  end.

(** The value of the longest prefix of digits, [None] when it is empty. *)
Fixpoint digits (radix : Z) (acc : option Z) (s : string) : option Z :=
  match s with
  | String c s' =>
      match digit_of radix c with
      | Some d => digits radix (Some (radix * default 0 acc + d)) s'
      | None => acc
      end
  | EmptyString => acc
  end.

Definition parseInt_string (s : string) : num :=
  let s := skip_ws s in
  let '(sign, s) :=
    match s with
    | String "-" s' => (-1, s')
    | String "+" s' => (1, s')
    | _ => (1, s)
    end in
  let '(radix, s) :=
    match s with
    | String "0" (String "x" s') => (16, s')
    | String "0" (String "X" s') => (16, s')
    | _ => (10, s)
    end in
  match digits radix None s with
  | Some m => Int (sign * m)
  | None => NaN
  end.

(** The first decimal digit of a positive integer; [fuel] bounds the number
    of its digits. *)
Fixpoint leading_digit (fuel : nat) (n : Z) : Z :=
  match fuel with
  | O => n
  | S fuel => if n <? 10 then n else leading_digit fuel (n / 10)
  end.

(** [parseInt(v)]: the argument is converted to a string first.  An integer
    below 10^21 prints as its decimal digits, which parse back to it.  From
    10^21 on a number prints in exponent notation ([1e+21], [-4.5e+22]),
    of which [parseInt] reads the sign and the digit before the point or
    the exponent.  The other values print as their names. *)
Definition parseInt (v : value) : num :=
  match v with
  | VNum (Int z) =>
      if Z.abs z <? 1000000000000000000000 then Int z
      else Int (Z.sgn z * leading_digit (Z.to_nat (Z.log2 (Z.abs z))) (Z.abs z))
  | VNum NaN => parseInt_string "NaN"
  | VUndefined => parseInt_string "undefined"
  | VNull => parseInt_string "null"
  | VBool b => parseInt_string (if b then "true" else "false")
  | VStr s => parseInt_string s
  end.

(** [n || 0] on a number: the number when it is truthy, otherwise 0; the
    result is never [NaN]. *)
Definition or_zero (n : num) : Z :=
  match n with
  | Int z => z
  | NaN => 0
  end.

Definition num_sub (a b : num) : num :=
  match a, b with
  | Int x, Int y => Int (x - y)
  | _, _ => NaN
  end.

(** [a < b] and [a <= b] on numbers: false when either side is [NaN]. *)
Definition num_lt (a b : num) : bool :=
  match a, b with
  | Int x, Int y => x <? y
  | _, _ => false
  end.

Definition num_le (a b : num) : bool :=
  match a, b with
  | Int x, Int y => x <=? y
  | _, _ => false
  end.

Section Coercions.

Variable StringToNumber : string -> num.

(** [ToNumber], which [Number(v)], [-] and the comparisons with a number
    apply to their operands. *)
Definition ToNumber (v : value) : num :=
  match v with
  | VUndefined => NaN
  | VNull => Int 0
  | VBool true => Int 1
  | VBool false => Int 0
  | VNum n => n
  | VStr s => StringToNumber s
  end.

(** [a - b], [a < b] and [a <= b] where at least one operand is a number,
    so that both are converted with [ToNumber]. *)
Definition sub (a b : value) : num := num_sub (ToNumber a) (ToNumber b).
Definition lt (a b : value) : bool := num_lt (ToNumber a) (ToNumber b).
Definition le (a b : value) : bool := num_le (ToNumber a) (ToNumber b).

End Coercions.

(** A [StringToNumber] for the strings that hold an optionally signed
    decimal integer between white space (the empty string counts as 0); it
    takes every other string to [NaN].  It instantiates the parameter where
    a concrete run is evaluated; those runs convert no string. *)
Fixpoint all_digits (acc : Z) (s : string) : option Z :=
  match s with
  | String c s' =>
      match digit_of 10 c with
      | Some d => all_digits (10 * acc + d) s'
      | None => if String.eqb (skip_ws s) "" then Some acc else None
      end
  | EmptyString => Some acc
  end.

Definition unsigned_int (s : string) : option Z :=
  match s with
  | String c _ =>
      match digit_of 10 c with
      | Some _ => all_digits 0 s
      | None => None
      end
  | EmptyString => None
  end.

Definition StringToNumber_int (s : string) : num :=
  match skip_ws s with
  | EmptyString => Int 0
  | String "-" s' => match unsigned_int s' with Some m => Int (- m) | None => NaN end
  | String "+" s' => match unsigned_int s' with Some m => Int m | None => NaN end
  | s' => match unsigned_int s' with Some m => Int m | None => NaN end
  end.

End JS.

Import JS.

(** ** The document store and the handler monad *)

Module Store.

(** The counters of a user document. *)
Inductive counter : Type :=
| totalEarned
| totalUsed
| tasksCompleted
| timeEarned
| timeUsed.

#[global] Instance counter_eq_dec : EqDecision counter.
Proof. solve_decision. Defined.

Definition counter_code (c : counter) : nat :=
  match c with
  | totalEarned => 0
  | totalUsed => 1
  | tasksCompleted => 2
  | timeEarned => 3
  | timeUsed => 4
  end%nat.

Definition counter_decode (n : nat) : option counter :=
  match n with
  | 0 => Some totalEarned
  | 1 => Some totalUsed
  | 2 => Some tasksCompleted
  | 3 => Some timeEarned
  | 4 => Some timeUsed
  | _ => None
  end%nat.

#[global] Instance counter_countable : Countable counter.
Proof.
  apply (inj_countable counter_code counter_decode).
  intros []; reflexivity.
Defined.

(** A document of the [users] collection.  A counter field that the
    document does not hold is absent from [counters]. *)
Record UserDoc : Type := {
  _id : string;
  name : value;
  createdAt : value;
  counters : gmap counter Z
}.

(** [user.f]: the field as a JavaScript value, [undefined] when absent. *)
Definition field (user : UserDoc) (f : counter) : value :=
  match counters user !! f with
  | Some z => VNum (Int z)
  | None => VUndefined
  end.

Definition set_field (f : counter) (z : Z) (user : UserDoc) : UserDoc :=
  {| _id := _id user; name := name user; createdAt := createdAt user;
     counters := <[f := z]> (counters user) |}.

(** The key of a document of the [tasks] collection. *)
Class Document (T : Type) := doc_id : T -> string.

Record Store (T : Type) : Type := {
  users : gmap string UserDoc;
  tasks : list T
}.
Arguments users {T} _.
Arguments tasks {T} _.

Definition empty {T} : Store T := {| users := ∅; tasks := [] |}.

(** *** The monad: the store as state, a thrown error as result *)

Inductive outcome (A : Type) : Type :=
| Val (a : A)
| Throw (message : string).
Arguments Val {A} a.
Arguments Throw {A} message.

Definition M (T A : Type) : Type := Store T -> Store T * outcome A.

#[global] Instance M_ret {T} : MRet (M T) := fun A a s => (s, Val a).

#[global] Instance M_bind {T} : MBind (M T) := fun A B f m s =>
  match m s with
  | (s', Val a) => f a s'
  | (s', Throw e) => (s', Throw e)
  end.

(** *** The operations of the collections *)

Section Collections.

Context {T : Type} `{Document T}.

(** [users.findOne({ _id: userId })] *)
Definition users_findOne (userId : string) : M T (option UserDoc) := fun s =>
  (s, Val (users s !! userId)).

(** [users.insertOne(user)] *)
Definition users_insertOne (user : UserDoc) : M T unit := fun s =>
  match users s !! _id user with
  | Some _ => (s, Throw "Document already exists with the given _id")
  | None => ({| users := <[_id user := user]> (users s); tasks := tasks s |}, Val ())
  end.

(** The operand of a [$inc], which must be a number. *)
Definition inc_operand (v : value) : option Z :=
  match v with
  | VNum (Int z) => Some z
  | _ => None
  end.

Definition inc_field (user : UserDoc) (fz : counter * Z) : UserDoc :=
  set_field fz.1 (default 0 (counters user !! fz.1) + fz.2) user.

(** [users.updateOne({ _id: userId }, { $inc: inc }, { upsert })] *)
Definition users_updateOne_inc (userId : string) (inc : list (counter * value))
    (upsert : bool) : M T unit := fun s =>
  match mapM (fun fv => z ← inc_operand fv.2; Some (fv.1, z)) inc with
  | None => (s, Throw "$inc operator requires numeric values")
  | Some inc =>
      match users s !! userId with
      | Some user =>
          ({| users := <[userId := foldl inc_field user inc]> (users s);
              tasks := tasks s |}, Val ())
      | None =>
          if upsert then
            let user := {| _id := userId; name := VUndefined;
                           createdAt := VUndefined; counters := ∅ |} in
            ({| users := <[userId := foldl inc_field user inc]> (users s);
                tasks := tasks s |}, Val ())
          else (s, Val ())
      end
  end.

(** [users.deleteMany({})], returning [deletedCount]: the client does not
    count the documents that the empty filter deletes and reports -1. *)
Definition users_deleteMany : M T Z := fun s =>
  ({| users := ∅; tasks := tasks s |}, Val (-1)).

(** [tasks.find(filter).toArray()].  The handlers ask for no sort and the
    store promises no order; the model returns the documents in insertion
    order. *)
Definition tasks_find (P : T -> Prop) `{!forall t, Decision (P t)} : M T (list T) :=
  fun s => (s, Val (filter P (tasks s))).

(** [tasks.findOne(filter)] *)
Definition tasks_findOne (P : T -> Prop) `{!forall t, Decision (P t)} : M T (option T) :=
  fun s => (s, Val (head (filter P (tasks s)))).

(** [tasks.insertOne(task)] *)
Definition tasks_insertOne (task : T) : M T unit := fun s =>
  if decide (doc_id task ∈ (doc_id <$> tasks s))
  then (s, Throw "Document already exists with the given _id")
  else ({| users := users s; tasks := tasks s ++ [task] |}, Val ()).

Fixpoint update_first (P : T -> Prop) `{!forall t, Decision (P t)} (set : T -> T)
    (l : list T) : list T :=
  match l with
  | [] => []
  | t :: l' => if decide (P t) then set t :: l' else t :: update_first P set l'
  end.

Definition matched (P : T -> Prop) `{!forall t, Decision (P t)} (l : list T) : nat :=
  match head (filter P l) with
  | Some _ => 1%nat
  | None => 0%nat
  end.

(** [tasks.updateOne(filter, { $set: ... })], returning [matchedCount] *)
Definition tasks_updateOne (P : T -> Prop) `{!forall t, Decision (P t)} (set : T -> T)
    : M T nat := fun s =>
  ({| users := users s; tasks := update_first P set (tasks s) |},
   Val (matched P (tasks s))).

Fixpoint delete_first (P : T -> Prop) `{!forall t, Decision (P t)} (l : list T) : list T :=
  match l with
  | [] => []
  | t :: l' => if decide (P t) then l' else t :: delete_first P l'
  end.

(** [tasks.deleteOne(filter)], returning [deletedCount] *)
Definition tasks_deleteOne (P : T -> Prop) `{!forall t, Decision (P t)} : M T nat :=
  fun s =>
  ({| users := users s; tasks := delete_first P (tasks s) |},
   Val (matched P (tasks s))).

(** [tasks.deleteMany({})], returning [deletedCount], which is -1 for the
    empty filter. *)
Definition tasks_deleteMany : M T Z := fun s =>
  ({| users := users s; tasks := [] |}, Val (-1)).

End Collections.

(** *** Responses *)

Module Summary.
Record t : Type := {
  totalEarned : value;
  totalUsed : value;
  balance : num;
  tasksCompleted : value;
  timeEarned : value;
  timeUsed : value;
  timeBalance : num;
  user : string * value
}.
End Summary.

(** The JSON bodies that the handlers send. *)
Inductive body (T : Type) : Type :=
| Tasks (taskList : list T)
| TaskJson (task : option T)
| Error (error : string)
| Failure (error details : string)
| Insufficient (error : string) (balance : num) (requested : value)
| InsufficientTime (error : string) (timeBalance : num) (requested : value)
| Spent (message : string) (spent : value) (newBalance : num)
| TimeSpent (activity : value) (spent : value) (newTimeBalance : num)
| SummaryJson (summary : Summary.t)
| Cleaned (tasksDeleted usersDeleted : Z)
| CleanupFailed (error : string)
| Message (message : string).
Arguments Tasks {T} _.
Arguments TaskJson {T} _.
Arguments Error {T} _.
Arguments Failure {T} _ _.
Arguments Insufficient {T} _ _ _.
Arguments InsufficientTime {T} _ _ _.
Arguments Spent {T} _ _ _.
Arguments TimeSpent {T} _ _ _.
Arguments SummaryJson {T} _.
Arguments Cleaned {T} _ _.
Arguments CleanupFailed {T} _.
Arguments Message {T} _.

Record response (T : Type) : Type := {
  status : nat;
  json : body T
}.
Arguments status {T} _.
Arguments json {T} _.

(** [res.status(code).json(b)]; [res.json(b)] is [res_status 200 b]. *)
Definition res_status {T} (code : nat) (b : body T) : response T :=
  {| status := code; json := b |}.

(** A request handler: [try { m } catch (error) { on_error error.message }],
    run on the store. *)
Definition handler (T : Type) : Type := Store T -> Store T * response T.

Definition handle {T} (m : M T (response T)) (on_error : string -> response T)
    : handler T := fun s =>
  match m s with
  | (s', Val r) => (s', r)
  | (s', Throw e) => (s', on_error e)
  end.

(** [x || 'default-user'] and the destructuring default [x = 'default-user']
    on a user id that is missing or a string. *)
Definition or_default_user (userId : option string) : string :=
  match userId with
  | Some u => if decide (u = "") then "default-user" else u
  | None => "default-user"
  end.

Definition default_user (userId : option string) : string :=
  default "default-user" userId.

End Store.

Import Store.

(** ** [src/server/index.js] *)

Module Server.

Record Task : Type := {
  _id : string;
  userId : string;
  description : value;
  reward : Z;
  timeReward : Z;
  completed : bool;
  createdAt : string;
  completedAt : option string
}.

#[global] Instance Task_eq_dec : EqDecision Task.
Proof. solve_decision. Defined.

#[global] Instance Task_document : Document Task := _id.

Section Handlers.

Variable StringToNumber : string -> num.

Abbreviation Number := (ToNumber StringToNumber).

(** Helper: get or create user *)
Definition getOrCreateUser (userId : string) : M Task UserDoc :=
  found ← users_findOne userId;
  user ← match found with
         | Some user => mret user
         | None =>
             let user :=
               {| Store._id := userId;
                  name := VStr "Default User";
                  Store.createdAt := VUndefined;
                  counters := {[ totalEarned := 0; totalUsed := 0; tasksCompleted := 0;
                                 timeEarned := 0; timeUsed := 0 ]} |} in
             _ ← users_insertOne user;
             mret user
         end;
  let user := set_field totalEarned (or_zero (Number (field user totalEarned))) user in
  let user := set_field totalUsed (or_zero (Number (field user totalUsed))) user in
  let user := set_field tasksCompleted (or_zero (Number (field user tasksCompleted))) user in
  let user := set_field timeEarned (or_zero (Number (field user timeEarned))) user in
  let user := set_field timeUsed (or_zero (Number (field user timeUsed))) user in
  mret user.

(** GET /api/tasks *)
Definition listTasks (query_userId : option string) : handler Task :=
  handle
    (let userId := or_default_user query_userId in
     taskList ← tasks_find (fun t => Server.userId t = userId);
     mret (res_status 200 (Tasks taskList)))
    (fun e => res_status 500 (Failure "Failed to fetch tasks" e)).

(** POST /api/tasks; [uuid] is the result of [uuidv4()] and [now] of
    [new Date().toISOString()]. *)
Definition createTask (description reward timeReward : value)
    (body_userId : option string) (uuid now : string) : handler Task :=
  handle
    (let userId := default_user body_userId in
     let pointReward := or_zero (parseInt reward) in
     let timeRewardValue := or_zero (parseInt timeReward) in
     if negb (truthy description) then
       mret (res_status 400 (Error "Description is required"))
     else if (pointReward <=? 0) && (timeRewardValue <=? 0) then
       mret (res_status 400
               (Error "At least one reward (points or time) must be greater than 0"))
     else
       let newTask :=
         {| _id := uuid; userId := userId; description := description;
            reward := pointReward; timeReward := timeRewardValue;
            completed := false; createdAt := now; completedAt := None |} in
       _ ← tasks_insertOne newTask;
       mret (res_status 201 (TaskJson (Some newTask))))
    (fun e => res_status 500 (Failure "Failed to create task" e)).

(** [{ $set: { completed: true, completedAt: now } }] *)
Definition set_completed (now : string) (t : Task) : Task :=
  {| _id := _id t; userId := userId t; description := description t;
     reward := reward t; timeReward := timeReward t; completed := true;
     createdAt := createdAt t; completedAt := Some now |}.

(** The [$inc] document of the credit step. *)
Definition incrementUpdate (task : Task) : list (counter * value) :=
  [(tasksCompleted, VNum (Int 1))]
  ++ (if reward task >? 0 then [(totalEarned, VNum (Int (reward task)))] else [])
  ++ (if timeReward task >? 0 then [(timeEarned, VNum (Int (timeReward task)))] else []).

(** POST /api/tasks/:id/complete *)
Definition completeTask (taskId : string) (body_userId : option string)
    (now : string) : handler Task :=
  handle
    (let userId := or_default_user body_userId in
     task ← tasks_findOne (fun t => _id t = taskId ∧ Server.userId t = userId);
     match task with
     | None => mret (res_status 404 (Error "Task not found"))
     | Some task =>
         if completed task then
           mret (res_status 400 (Error "Task already completed"))
         else
           updateResult ← tasks_updateOne (fun t => _id t = taskId) (set_completed now);
           userUpdateResult ← users_updateOne_inc userId (incrementUpdate task) true;
           updatedTask ← tasks_findOne (fun t => _id t = taskId);
           mret (res_status 200 (TaskJson updatedTask))
     end)
    (fun e => res_status 500 (Failure "Failed to complete task" e)).

(** POST /api/rewards/use; the [description] of the body is not used. *)
Definition spendPoints (amount : value) (body_userId : option string) : handler Task :=
  handle
    (let userId := default_user body_userId in
     if negb (truthy amount) || le StringToNumber amount (VNum (Int 0)) then
       mret (res_status 400 (Error "Valid amount is required"))
     else
       user ← getOrCreateUser userId;
       let balance := sub StringToNumber (field user totalEarned) (field user totalUsed) in
       if lt StringToNumber (VNum balance) amount then
         mret (res_status 400 (Insufficient "Insufficient balance" balance amount))
       else
         _ ← users_updateOne_inc userId [(totalUsed, amount)] false;
         mret (res_status 200
                 (Spent "Points spent successfully" amount
                    (sub StringToNumber (VNum balance) amount))))
    (fun e => res_status 500 (Failure "Failed to spend rewards" e)).

(** POST /api/rewards/use-time; the [message] of the success body, which
    only prints [minutes] and [activity], is left out of [TimeSpent]. *)
Definition spendTime (minutes activity : value) (body_userId : option string)
    : handler Task :=
  handle
    (let activity := if decide (activity = VUndefined) then VStr "Free time" else activity in
     let userId := default_user body_userId in
     if negb (truthy minutes) || le StringToNumber minutes (VNum (Int 0)) then
       mret (res_status 400 (Error "Valid time amount is required"))
     else
       user ← getOrCreateUser userId;
       let timeBalance := sub StringToNumber (field user timeEarned) (field user timeUsed) in
       if lt StringToNumber (VNum timeBalance) minutes then
         mret (res_status 400
                 (InsufficientTime "Insufficient time balance" timeBalance minutes))
       else
         _ ← users_updateOne_inc userId [(timeUsed, minutes)] false;
         mret (res_status 200
                 (TimeSpent activity minutes
                    (sub StringToNumber (VNum timeBalance) minutes))))
    (fun e => res_status 500 (Failure "Failed to spend time" e)).

(** GET /api/rewards/summary *)
Definition summary (query_userId : option string) : handler Task :=
  handle
    (let userId := or_default_user query_userId in
     user ← getOrCreateUser userId;
     let summary :=
       {| Summary.totalEarned := field user totalEarned;
          Summary.totalUsed := field user totalUsed;
          Summary.balance :=
            sub StringToNumber (field user totalEarned) (field user totalUsed);
          Summary.tasksCompleted := field user tasksCompleted;
          Summary.timeEarned := field user timeEarned;
          Summary.timeUsed := field user timeUsed;
          Summary.timeBalance :=
            sub StringToNumber (field user timeEarned) (field user timeUsed);
          Summary.user := (Store._id user, name user) |} in
     mret (res_status 200 (SummaryJson summary)))
    (fun e => res_status 500 (Failure "Failed to fetch reward summary" e)).

(** DELETE /api/admin/cleanup.  [db] is set when the module is loaded,
    before any request is served. *)
Definition cleanup : handler Task :=
  handle
    (tasksDeleted ← tasks_deleteMany;
     usersDeleted ← users_deleteMany;
     mret (res_status 200 (Cleaned tasksDeleted usersDeleted)))
    (fun e => res_status 500 (CleanupFailed "Failed to clean database")).

(** The routes of the application, each request with the values that
    [uuidv4()] and the clock return while it is served. *)
Inductive request : Type :=
| GetTasks (query_userId : option string)
| PostTask (description reward timeReward : value) (body_userId : option string)
    (uuid now : string)
| PostComplete (taskId : string) (body_userId : option string) (now : string)
| PostUse (amount : value) (body_userId : option string)
| PostUseTime (minutes activity : value) (body_userId : option string)
| GetSummary (query_userId : option string)
| DeleteCleanup.

Definition app (req : request) : handler Task :=
  match req with
  | GetTasks q => listTasks q
  | PostTask description reward timeReward u uuid now =>
      createTask description reward timeReward u uuid now
  | PostComplete taskId u now => completeTask taskId u now
  | PostUse amount u => spendPoints amount u
  | PostUseTime minutes activity u => spendTime minutes activity u
  | GetSummary q => summary q
  | DeleteCleanup => cleanup
  end.

(** The store after a sequence of requests. *)
Definition run (reqs : list request) (s : Store Task) : Store Task :=
  foldl (fun s req => (app req s).1) s reqs.

(** The responses to a sequence of requests. *)
Fixpoint responses (reqs : list request) (s : Store Task) : list (response Task) :=
  match reqs with
  | [] => []
  | req :: reqs => (app req s).2 :: responses reqs (app req s).1
  end.

(** The tasks that the responses with status 201 carry: the tasks created
    by the requests. *)
Definition created_task (r : response Task) : option Task :=
  match json r with
  | TaskJson (Some t) => if decide (status r = 201%nat) then Some t else None
  | _ => None
  end.

Definition created (reqs : list request) (s : Store Task) : list Task :=
  omap created_task (responses reqs s).

(** The identifiers that [uuidv4()] returned while the requests were
    served. *)
Definition uuid_of (req : request) : option string :=
  match req with
  | PostTask _ _ _ _ uuid _ => Some uuid
  | _ => None
  end.

Definition uuids (reqs : list request) : list string := omap uuid_of reqs.

End Handlers.

End Server.

(** ** The second server variant (lazy connection, tasks without owner)

    Every handler first awaits [ensureCollections()], which only sets up the
    connection and does not touch the documents. *)

Module Api.

Record Task : Type := {
  _id : string;
  name : value;
  reward : Z;
  timeReward : Z;
  category : value;
  priority : value;
  notes : value;
  completed : bool;
  createdAt : string;
  completedAt : option string;
  updatedAt : option string
}.

#[global] Instance Task_eq_dec : EqDecision Task.
Proof. solve_decision. Defined.

#[global] Instance Task_document : Document Task := _id.

(** A destructuring default [{ x = d } = req.body]. *)
Definition or_else (d v : value) : value :=
  if decide (v = VUndefined) then d else v.

Section Handlers.

Variable StringToNumber : string -> num.

Abbreviation Number := (ToNumber StringToNumber).

Definition getOrCreateUser (userId now : string) : M Task UserDoc :=
  existingUser ← users_findOne userId;
  match existingUser with
  | None =>
      let newUser :=
        {| Store._id := userId;
           Store.name :=
             if decide (userId = "default-user") then VStr "Default User" else VStr userId;
           counters := {[ totalEarned := 0; totalUsed := 0; timeEarned := 0;
                          timeUsed := 0; tasksCompleted := 0 ]};
           Store.createdAt := VStr now |} in
      _ ← users_insertOne newUser;
      mret newUser
  | Some existingUser => mret existingUser
  end.

(** GET /api/tasks *)
Definition listTasks : handler Task :=
  handle
    (allTasks ← tasks_find (fun _ => True);
     mret (res_status 200 (Tasks allTasks)))
    (fun e => res_status 500 (Failure "Failed to fetch tasks" e)).

(** POST /api/tasks *)
Definition createTask (name reward timeReward category priority notes : value)
    (uuid now : string) : handler Task :=
  handle
    (let reward := or_else (VNum (Int 0)) reward in
     let timeReward := or_else (VNum (Int 0)) timeReward in
     let category := or_else (VStr "general") category in
     let priority := or_else (VStr "medium") priority in
     let notes := or_else (VStr "") notes in
     if negb (truthy name) then
       mret (res_status 400 (Error "Task name is required"))
     else
       let task :=
         {| _id := uuid; name := name;
            reward := or_zero (Number reward);
            timeReward := or_zero (Number timeReward);
            category := category; priority := priority; notes := notes;
            completed := false; createdAt := now;
            completedAt := None; updatedAt := None |} in
       result ← tasks_insertOne task;
       mret (res_status 201 (TaskJson (Some task))))
    (fun e => res_status 500 (Failure "Failed to create task" e)).

(** PUT /api/tasks/:id *)
Definition updateTask (taskId : string)
    (name reward timeReward category priority notes : value) (now : string)
    : handler Task :=
  handle
    (let reward := or_else (VNum (Int 0)) reward in
     let timeReward := or_else (VNum (Int 0)) timeReward in
     let category := or_else (VStr "general") category in
     let priority := or_else (VStr "medium") priority in
     let notes := or_else (VStr "") notes in
     if negb (truthy name) then
       mret (res_status 400 (Error "Task name is required"))
     else
       matchedCount ← tasks_updateOne (fun t => _id t = taskId)
         (fun t => {| _id := _id t; name := name;
                      reward := or_zero (Number reward);
                      timeReward := or_zero (Number timeReward);
                      category := category; priority := priority; notes := notes;
                      completed := completed t; createdAt := createdAt t;
                      completedAt := completedAt t; updatedAt := Some now |});
       if (matchedCount =? 0)%nat then
         mret (res_status 404 (Error "Task not found"))
       else
         updatedTask ← tasks_findOne (fun t => _id t = taskId);
         mret (res_status 200 (TaskJson updatedTask)))
    (fun e => res_status 500 (Failure "Failed to update task" e)).

(** DELETE /api/tasks/:id *)
Definition deleteTask (taskId : string) : handler Task :=
  handle
    (deletedCount ← tasks_deleteOne (fun t => _id t = taskId);
     if (deletedCount =? 0)%nat then
       mret (res_status 404 (Error "Task not found"))
     else
       mret (res_status 200 (Message "Task deleted successfully")))
    (fun e => res_status 500 (Failure "Failed to delete task" e)).

(** [{ $set: { completed: true, completedAt: now } }] *)
Definition set_completed (now : string) (t : Task) : Task :=
  {| _id := _id t; name := name t; reward := reward t;
     timeReward := timeReward t; category := category t;
     priority := priority t; notes := notes t;
     completed := true; createdAt := createdAt t;
     completedAt := Some now; updatedAt := updatedAt t |}.

(** The [$inc] document of the credit step. *)
Definition incrementUpdate (task : Task) : list (counter * value) :=
  [(tasksCompleted, VNum (Int 1))]
  ++ (if reward task >? 0 then [(totalEarned, VNum (Int (reward task)))] else [])
  ++ (if timeReward task >? 0 then [(timeEarned, VNum (Int (timeReward task)))] else []).

(** POST /api/tasks/:id/complete *)
Definition completeTask (taskId : string) (body_userId : option string)
    (now : string) : handler Task :=
  handle
    (let userId := default_user body_userId in
     task ← tasks_findOne (fun t => _id t = taskId);
     match task with
     | None => mret (res_status 404 (Error "Task not found"))
     | Some task =>
         if completed task then
           mret (res_status 400 (Error "Task already completed"))
         else
           updateResult ← tasks_updateOne (fun t => _id t = taskId) (set_completed now);
           userUpdateResult ← users_updateOne_inc userId (incrementUpdate task) true;
           updatedTask ← tasks_findOne (fun t => _id t = taskId);
           mret (res_status 200 (TaskJson updatedTask))
     end)
    (fun e => res_status 500 (Failure "Failed to complete task" e)).

(** POST /api/rewards/use; the [description] of the body is not used. *)
Definition spendPoints (amount : value) (body_userId : option string) (now : string)
    : handler Task :=
  handle
    (let userId := default_user body_userId in
     if negb (truthy amount) || le StringToNumber amount (VNum (Int 0)) then
       mret (res_status 400 (Error "Valid amount is required"))
     else
       user ← getOrCreateUser userId now;
       let balance := sub StringToNumber (field user totalEarned) (field user totalUsed) in
       if lt StringToNumber (VNum balance) amount then
         mret (res_status 400 (Insufficient "Insufficient balance" balance amount))
       else
         _ ← users_updateOne_inc userId [(totalUsed, amount)] false;
         mret (res_status 200
                 (Spent "Points spent successfully" amount
                    (sub StringToNumber (VNum balance) amount))))
    (fun e => res_status 500 (Failure "Failed to spend rewards" e)).

(** POST /api/rewards/use-time *)
Definition spendTime (minutes activity : value) (body_userId : option string)
    (now : string) : handler Task :=
  handle
    (let activity := or_else (VStr "Free time") activity in
     let userId := default_user body_userId in
     if negb (truthy minutes) || le StringToNumber minutes (VNum (Int 0)) then
       mret (res_status 400 (Error "Valid time amount is required"))
     else
       user ← getOrCreateUser userId now;
       let timeBalance := sub StringToNumber (field user timeEarned) (field user timeUsed) in
       if lt StringToNumber (VNum timeBalance) minutes then
         mret (res_status 400
                 (InsufficientTime "Insufficient time balance" timeBalance minutes))
       else
         _ ← users_updateOne_inc userId [(timeUsed, minutes)] false;
         mret (res_status 200
                 (TimeSpent activity minutes
                    (sub StringToNumber (VNum timeBalance) minutes))))
    (fun e => res_status 500 (Failure "Failed to spend time" e)).

(** GET /api/rewards/summary *)
Definition summary (query_userId : option string) (now : string) : handler Task :=
  handle
    (let userId := or_default_user query_userId in
     user ← getOrCreateUser userId now;
     let summary :=
       {| Summary.totalEarned := field user totalEarned;
          Summary.totalUsed := field user totalUsed;
          Summary.balance :=
            sub StringToNumber (field user totalEarned) (field user totalUsed);
          Summary.tasksCompleted := field user tasksCompleted;
          Summary.timeEarned := field user timeEarned;
          Summary.timeUsed := field user timeUsed;
          Summary.timeBalance :=
            sub StringToNumber (field user timeEarned) (field user timeUsed);
          Summary.user := (Store._id user, Store.name user) |} in
     mret (res_status 200 (SummaryJson summary)))
    (fun e => res_status 500 (Failure "Failed to fetch reward summary" e)).

(** DELETE /api/admin/cleanup.  This route alone does not await
    [ensureCollections()]: until another request of the process has set up
    the connection, [db] is [null], [db.collection] throws and nothing is
    deleted.  [connected] tells whether the connection is set up. *)
Definition cleanup (connected : bool) : handler Task :=
  handle
    (if connected then
       tasksDeleted ← tasks_deleteMany;
       usersDeleted ← users_deleteMany;
       mret (res_status 200 (Cleaned tasksDeleted usersDeleted))
     else fun s => (s, Throw "Cannot read properties of null"))
    (fun e => res_status 500 (CleanupFailed "Failed to clean database")).

(** The routes of the application. *)
Inductive request : Type :=
| GetTasks
| PostTask (name reward timeReward category priority notes : value) (uuid now : string)
| PutTask (taskId : string) (name reward timeReward category priority notes : value)
    (now : string)
| DeleteTask (taskId : string)
| PostComplete (taskId : string) (body_userId : option string) (now : string)
| PostUse (amount : value) (body_userId : option string) (now : string)
| PostUseTime (minutes activity : value) (body_userId : option string) (now : string)
| GetSummary (query_userId : option string) (now : string)
| DeleteCleanup
| DeleteCleanupUnconnected.

Definition app (req : request) : handler Task :=
  match req with
  | GetTasks => listTasks
  | PostTask name reward timeReward category priority notes uuid now =>
      createTask name reward timeReward category priority notes uuid now
  | PutTask taskId name reward timeReward category priority notes now =>
      updateTask taskId name reward timeReward category priority notes now
  | DeleteTask taskId => deleteTask taskId
  | PostComplete taskId u now => completeTask taskId u now
  | PostUse amount u now => spendPoints amount u now
  | PostUseTime minutes activity u now => spendTime minutes activity u now
  | GetSummary q now => summary q now
  | DeleteCleanup => cleanup true
  | DeleteCleanupUnconnected => cleanup false
  end.

(** The store after a sequence of requests. *)
Definition run (reqs : list request) (s : Store Task) : Store Task :=
  foldl (fun s req => (app req s).1) s reqs.

(** The responses to a sequence of requests. *)
Fixpoint responses (reqs : list request) (s : Store Task) : list (response Task) :=
  match reqs with
  | [] => []
  | req :: reqs => (app req s).2 :: responses reqs (app req s).1
  end.

(** The tasks that the responses with status 201 carry: the tasks created
    by the requests. *)
Definition created_task (r : response Task) : option Task :=
  match json r with
  | TaskJson (Some t) => if decide (status r = 201%nat) then Some t else None
  | _ => None
  end.

Definition created (reqs : list request) (s : Store Task) : list Task :=
  omap created_task (responses reqs s).

(** The identifiers that [uuidv4()] returned while the requests were
    served. *)
Definition uuid_of (req : request) : option string :=
  match req with
  | PostTask _ _ _ _ _ _ uuid _ => Some uuid
  | _ => None
  end.

Definition uuids (reqs : list request) : list string := omap uuid_of reqs.

End Handlers.

End Api.

(** ** The ledger as the specification reads it

    The counters of a user as numbers, a counter that the store does not
    hold counting as 0, and the two derived balances. *)

Section Ledger.

Context {T : Type}.

Definition stored (user : option UserDoc) (c : counter) : Z :=
  default 0 (user ≫= fun d => counters d !! c).

Definition counter_of (s : Store T) (userId : string) (c : counter) : Z :=
  stored (users s !! userId) c.

Definition pointBalance (s : Store T) (userId : string) : Z :=
  counter_of s userId totalEarned - counter_of s userId totalUsed.

Definition timeBalance (s : Store T) (userId : string) : Z :=
  counter_of s userId timeEarned - counter_of s userId timeUsed.

(** The sum that a [$inc] document adds to counter [c]. *)
Definition inc_total (c : counter) (inc : list (counter * Z)) : Z :=
  foldr (fun fz acc => (if decide (fz.1 = c) then fz.2 else 0) + acc) 0 inc.

(** The increments of the credit step for a task with the given rewards. *)
Definition credited (reward timeReward : Z) : list (counter * Z) :=
  [(tasksCompleted, 1)]
  ++ (if reward >? 0 then [(totalEarned, reward)] else [])
  ++ (if timeReward >? 0 then [(timeEarned, timeReward)] else []).

(** The invariant of the ledger: no counter and no balance is negative. *)
Definition ledger_ok (s : Store T) : Prop :=
  forall u, (forall c, 0 <= counter_of s u c)
            /\ 0 <= pointBalance s u /\ 0 <= timeBalance s u.

(** A store whose user records, if any, are freshly created: every
    counter is zero. *)
Definition zeroed (s : Store T) : Prop :=
  forall u c, counter_of s u c = 0.

(** The keys of the [tasks] collection are unique. *)
Definition keys_unique `{Document T} (s : Store T) : Prop :=
  NoDup (doc_id <$> tasks s).

(** The document a [$inc] starts from: the stored one, or the one an
    upsert creates. *)
Definition upserted (userId : string) (user : option UserDoc) : UserDoc :=
  default {| Store._id := userId; Store.name := VUndefined;
             Store.createdAt := VUndefined; counters := ∅ |} user.

End Ledger.

(** The record of a user is stored and holds all five counters. *)
Definition full_record {T} (s : Store T) (userId : string) : Prop :=
  exists d, users s !! userId = Some d /\ forall c, is_Some (counters d !! c).

(** The sum of [f] over the completed tasks of a user, in the server
    variant. *)
Definition completed_sum (f : Server.Task -> Z) (userId : string)
    (l : list Server.Task) : Z :=
  foldr (fun t acc =>
           (if decide (Server.completed t = true /\ Server.userId t = userId)
            then f t else 0) + acc) 0 l.

(** ** The scenarios that the properties are evaluated on *)

(** The store of the scenario of the specification, in the server variant:
    a task worth 10 points and 15 minutes, created and completed for
    "alice". *)
Definition alice_requests : list Server.request :=
  [ Server.PostTask (VStr "Read a book") (VNum (Int 10)) (VNum (Int 15)) (Some "alice")
      "7b0c" "2024-01-01T10:00:00.000Z";
    Server.PostComplete "7b0c" (Some "alice") "2024-01-01T11:00:00.000Z" ].

Definition alice_store : Store Server.Task :=
  Server.run StringToNumber_int alice_requests Store.empty.

(** A task worth no points and 5 minutes, in each variant. *)
Definition nap_store : Store Server.Task :=
  Server.run StringToNumber_int
    [ Server.PostTask (VStr "Take a nap") (VNum (Int 0)) (VNum (Int 5)) (Some "alice")
        "19af" "2024-01-02T09:00:00.000Z" ] alice_store.

Definition api_nap_store : Store Api.Task :=
  Api.run StringToNumber_int
    [ Api.PostTask (VStr "Take a nap") (VNum (Int 0)) (VNum (Int 5)) VUndefined VUndefined
        VUndefined "19af" "2024-01-02T09:00:00.000Z";
      Api.GetSummary (Some "alice") "2024-01-02T09:30:00.000Z" ] Store.empty.

(** ** Facts about the store operations *)

Section StoreFacts.

Context {T : Type} `{Document T}.

Lemma counters_set_field f z d c :
  counters (set_field f z d) !! c = if decide (f = c) then Some z else counters d !! c.
Proof. unfold set_field; simpl. apply lookup_insert. Qed.

Lemma stored_inc_field d fz c :
  stored (Some (inc_field d fz)) c
  = stored (Some d) c + (if decide (fz.1 = c) then fz.2 else 0).
Proof.
  unfold stored, inc_field. cbn [mbind option_bind]. rewrite counters_set_field.
  destruct (decide (fz.1 = c)) as [->|]; simpl; lia.
Qed.

Lemma stored_foldl_inc inc : forall d c,
  stored (Some (foldl inc_field d inc)) c = stored (Some d) c + inc_total c inc.
Proof.
  induction inc as [|fz inc IH]; intros d c; simpl.
  - lia.
  - rewrite IH, stored_inc_field. lia.
Qed.

Lemma stored_upserted userId (user : option UserDoc) c :
  stored (Some (upserted userId user)) c = stored user c.
Proof. destruct user; reflexivity. Qed.

(** A [$inc] whose operands are numbers, on a stored user or as an
    upsert, adds the operands to the counters of that user only. *)
Lemma users_updateOne_inc_numeric userId inc zs upsert (s : Store T) :
  mapM (fun fv => z ← inc_operand fv.2; Some (fv.1, z)) inc = Some zs ->
  upsert = true \/ is_Some (users s !! userId) ->
  users_updateOne_inc userId inc upsert s
  = ({| users := <[userId := foldl inc_field (upserted userId (users s !! userId)) zs]>
                   (users s);
        tasks := tasks s |}, Val ()).
Proof.
  intros Hm Hu. unfold users_updateOne_inc. rewrite Hm.
  destruct (users s !! userId) as [d|] eqn:E; simpl; [reflexivity|].
  destruct Hu as [->|[? ?]]; [reflexivity|discriminate].
Qed.

Lemma users_updateOne_inc_invalid userId inc upsert (s : Store T) :
  mapM (fun fv => z ← inc_operand fv.2; Some (fv.1, z)) inc = None ->
  users_updateOne_inc userId inc upsert s
  = (s, Throw "$inc operator requires numeric values").
Proof. intros Hm. unfold users_updateOne_inc. now rewrite Hm. Qed.

Lemma counter_of_inc userId zs (s : Store T) (l : list T) u c :
  counter_of
    {| users := <[userId := foldl inc_field (upserted userId (users s !! userId)) zs]>
                  (users s);
       tasks := l |} u c
  = counter_of s u c + (if decide (userId = u) then inc_total c zs else 0).
Proof.
  unfold counter_of; simpl. rewrite lookup_insert.
  destruct (decide (userId = u)) as [->|].
  - now rewrite stored_foldl_inc, stored_upserted.
  - lia.
Qed.

End StoreFacts.

(** *** The monad *)

Section MonadFacts.

Context {T A B : Type}.

Lemma bind_Val (m : M T A) (k : A -> M T B) s s' a :
  m s = (s', Val a) -> (m ≫= k) s = k a s'.
Proof. intros Hm. unfold mbind, M_bind. now rewrite Hm. Qed.

Lemma bind_Throw (m : M T A) (k : A -> M T B) s s' e :
  m s = (s', Throw e) -> (m ≫= k) s = (s', Throw e).
Proof. intros Hm. unfold mbind, M_bind. now rewrite Hm. Qed.

End MonadFacts.

(** *** The [tasks] collection as a list with unique keys *)

Section TaskFacts.

Context {T : Type} `{Document T}.

Lemma head_filter_unique (P : T -> Prop) `{!forall t, Decision (P t)} (l : list T) t :
  NoDup (doc_id <$> l) -> t ∈ l -> P t ->
  (forall t', P t' -> doc_id t' = doc_id t) ->
  head (filter P l) = Some t.
Proof.
  intros Hnd Hin HP Hid. induction l as [|x l IH]; [inversion Hin|].
  rewrite fmap_cons in Hnd. apply NoDup_cons in Hnd as [Hx Hnd].
  rewrite filter_cons. apply elem_of_cons in Hin as [<-|Hin].
  - now rewrite decide_True.
  - destruct (decide (P x)) as [Px|]; [|auto].
    exfalso. apply Hx. rewrite (Hid x Px). now apply list_elem_of_fmap_2.
Qed.

Lemma update_first_ids (P : T -> Prop) `{!forall t, Decision (P t)} set (l : list T) :
  (forall t, doc_id (set t) = doc_id t) ->
  doc_id <$> update_first P set l = doc_id <$> l.
Proof.
  intros Hset. induction l as [|x l IH]; [reflexivity|]. simpl.
  destruct (decide (P x)); rewrite !fmap_cons; [now rewrite Hset|now rewrite IH].
Qed.

Lemma elem_of_update_first (P : T -> Prop) `{!forall t, Decision (P t)} set (l : list T) t :
  NoDup (doc_id <$> l) -> t ∈ l -> P t ->
  (forall t', P t' -> doc_id t' = doc_id t) ->
  set t ∈ update_first P set l.
Proof.
  intros Hnd Hin HP Hid. induction l as [|x l IH]; [inversion Hin|].
  rewrite fmap_cons in Hnd. apply NoDup_cons in Hnd as [Hx Hnd]. simpl.
  apply elem_of_cons in Hin as [<-|Hin].
  - rewrite decide_True by done. left.
  - destruct (decide (P x)) as [Px|]; [|right; auto].
    exfalso. apply Hx. rewrite (Hid x Px). now apply list_elem_of_fmap_2.
Qed.

Lemma delete_first_sublist (P : T -> Prop) `{!forall t, Decision (P t)} (l : list T) :
  delete_first P l `sublist_of` l.
Proof.
  induction l as [|x l IH]; simpl; [constructor|].
  destruct (decide (P x)); [now apply sublist_cons|now apply sublist_skip].
Qed.

End TaskFacts.

(** ** The handlers of [src/server/index.js] *)

Module ServerSpec.

Import Server.

Ltac run_monad :=
  unfold handle, mbind, M_bind, mret, M_ret, users_findOne, users_insertOne,
    tasks_find, tasks_findOne, tasks_insertOne, tasks_updateOne, tasks_deleteMany,
    users_deleteMany; cbn beta iota.

Section Spec.

Variable StringToNumber : string -> num.

Implicit Types (s : Store Task) (t : Task).

(** The user object that [getOrCreateUser] returns holds every counter as
    a number, the one the ledger reads; the call creates the document when
    it is missing and changes no counter. *)
Lemma getOrCreateUser_spec userId s :
  exists s' user,
    getOrCreateUser StringToNumber userId s = (s', Val user)
    /\ tasks s' = tasks s
    /\ is_Some (users s' !! userId)
    /\ (forall u c, counter_of s' u c = counter_of s u c)
    /\ (forall c, field user c = VNum (Int (counter_of s userId c))).
Proof.
  unfold getOrCreateUser. run_monad.
  destruct (users s !! userId) as [d|] eqn:E; cbn [Store._id].
  - rewrite ?E. eexists _, _. split; [reflexivity|].
    repeat split; [now rewrite E|].
    intros c. unfold counter_of, stored, field. rewrite E. cbn [mbind option_bind].
    destruct c; rewrite !counters_set_field; repeat case_decide; try congruence;
      unfold field; destruct (counters d !! _); reflexivity.
  - rewrite E. eexists _, _. split; [reflexivity|].
    cbn [users tasks Store._id]. repeat split.
    + rewrite lookup_insert_eq. eauto.
    + intros u c. unfold counter_of. cbn [users]. rewrite lookup_insert.
      case_decide; [subst u; rewrite E; now destruct c|reflexivity].
    + intros c. unfold counter_of. rewrite E. now destruct c.
Qed.

(** What [amount] must be for the validation of a spend to let it
    through and for the store to accept it as a [$inc] operand. *)
Lemma valid_amount amount (a : Z) :
  amount = VNum (Int a) ->
  negb (truthy amount) || le StringToNumber amount (VNum (Int 0)) = false <-> 0 < a.
Proof.
  intros ->. unfold le, num_le; simpl.
  destruct (Z.eqb_spec a 0), (Z.leb_spec a 0); simpl; split; intros; try lia; congruence.
Qed.

(** POST /api/rewards/use: the three ways it can end. *)
Lemma spendPoints_cases amount body_userId s :
  let userId := default_user body_userId in
  let r := spendPoints StringToNumber amount body_userId s in
  tasks r.1 = tasks s /\
  (((status r.2 = 400%nat \/ status r.2 = 500%nat)
    /\ forall u c, counter_of r.1 u c = counter_of s u c)
   \/ exists a, amount = VNum (Int a) /\ 0 < a <= pointBalance s userId
        /\ r.2 = res_status 200
                   (Spent "Points spent successfully" amount
                      (Int (pointBalance s userId - a)))
        /\ forall u c, counter_of r.1 u c
             = counter_of s u c
               + (if decide (userId = u) then inc_total c [(totalUsed, a)] else 0)).
Proof.
  intros userId r. subst r. unfold spendPoints, handle. fold userId.
  destruct (negb (truthy amount) || le StringToNumber amount (VNum (Int 0))) eqn:Hv.
  { cbn. split; [reflexivity|]. left. split; [now left|reflexivity]. }
  destruct (getOrCreateUser_spec userId s) as (s1 & user & Hg & Ht & Hu & Hc & Hf).
  rewrite (bind_Val _ _ _ _ _ Hg). rewrite !Hf.
  change (sub StringToNumber (VNum (Int (counter_of s userId totalEarned)))
            (VNum (Int (counter_of s userId totalUsed))))
    with (Int (pointBalance s userId)).
  destruct (lt StringToNumber (VNum (Int (pointBalance s userId))) amount) eqn:Hlt.
  { cbn. split; [assumption|]. left. split; [now left|assumption]. }
  destruct (inc_operand amount) as [a|] eqn:Ha.
  - assert (amount = VNum (Int a)) as ->
      by (destruct amount as [| | |[]|]; try discriminate; now injection Ha as ->).
    apply (valid_amount _ a eq_refl) in Hv.
    unfold lt, num_lt in Hlt; simpl in Hlt. apply Z.ltb_ge in Hlt.
    erewrite bind_Val
      by (apply (users_updateOne_inc_numeric _ _ [(totalUsed, a)]); [reflexivity|now right]).
    cbn [mret M_ret fst snd tasks]. split; [assumption|]. right.
    exists a. repeat split; try lia.
    intros u c. rewrite counter_of_inc, Hc. reflexivity.
  - erewrite bind_Throw
      by (apply users_updateOne_inc_invalid; simpl; now rewrite Ha).
    cbn. split; [assumption|]. left. split; [now right|assumption].
Qed.

(** POST /api/rewards/use-time: the three ways it can end. *)
Lemma spendTime_cases minutes activity body_userId s :
  let userId := default_user body_userId in
  let r := spendTime StringToNumber minutes activity body_userId s in
  tasks r.1 = tasks s /\
  (((status r.2 = 400%nat \/ status r.2 = 500%nat)
    /\ forall u c, counter_of r.1 u c = counter_of s u c)
   \/ exists a, minutes = VNum (Int a) /\ 0 < a <= timeBalance s userId
        /\ (exists act, r.2 = res_status 200
                   (TimeSpent act minutes (Int (timeBalance s userId - a))))
        /\ forall u c, counter_of r.1 u c
             = counter_of s u c
               + (if decide (userId = u) then inc_total c [(timeUsed, a)] else 0)).
Proof.
  intros userId r. subst r. unfold spendTime, handle. fold userId.
  destruct (negb (truthy minutes) || le StringToNumber minutes (VNum (Int 0))) eqn:Hv.
  { cbn. split; [reflexivity|]. left. split; [now left|reflexivity]. }
  destruct (getOrCreateUser_spec userId s) as (s1 & user & Hg & Ht & Hu & Hc & Hf).
  rewrite (bind_Val _ _ _ _ _ Hg). rewrite !Hf.
  change (sub StringToNumber (VNum (Int (counter_of s userId timeEarned)))
            (VNum (Int (counter_of s userId timeUsed))))
    with (Int (timeBalance s userId)).
  destruct (lt StringToNumber (VNum (Int (timeBalance s userId))) minutes) eqn:Hlt.
  { cbn. split; [assumption|]. left. split; [now left|assumption]. }
  destruct (inc_operand minutes) as [a|] eqn:Ha.
  - assert (minutes = VNum (Int a)) as ->
      by (destruct minutes as [| | |[]|]; try discriminate; now injection Ha as ->).
    apply (valid_amount _ a eq_refl) in Hv.
    unfold lt, num_lt in Hlt; simpl in Hlt. apply Z.ltb_ge in Hlt.
    erewrite bind_Val
      by (apply (users_updateOne_inc_numeric _ _ [(timeUsed, a)]); [reflexivity|now right]).
    cbn [mret M_ret fst snd tasks]. split; [assumption|]. right.
    exists a. repeat split; try lia; [eexists; reflexivity|].
    intros u c. rewrite counter_of_inc, Hc. reflexivity.
  - erewrite bind_Throw
      by (apply users_updateOne_inc_invalid; simpl; now rewrite Ha).
    cbn. split; [assumption|]. left. split; [now right|assumption].
Qed.

(** The [$inc] document of the credit step holds numbers only. *)
Lemma incrementUpdate_numeric t :
  mapM (fun fv => z ← inc_operand fv.2; Some (fv.1, z)) (incrementUpdate t)
  = Some (credited (reward t) (timeReward t)).
Proof.
  unfold incrementUpdate, credited.
  destruct (reward t >? 0), (timeReward t >? 0); reflexivity.
Qed.

(** POST /api/tasks/:id/complete as a function of the store. *)
Lemma completeTask_eq taskId body_userId now s :
  let userId := or_default_user body_userId in
  completeTask taskId body_userId now s =
  match head (filter (fun t => _id t = taskId /\ Server.userId t = userId) (tasks s)) with
  | None => (s, res_status 404 (Error "Task not found"))
  | Some task =>
      if completed task then (s, res_status 400 (Error "Task already completed"))
      else
        let tasks' := update_first (fun t => _id t = taskId) (set_completed now) (tasks s) in
        ({| users := <[userId := foldl inc_field (upserted userId (users s !! userId))
                                    (credited (reward task) (timeReward task))]> (users s);
            tasks := tasks' |},
         res_status 200 (TaskJson (head (filter (fun t => _id t = taskId) tasks'))))
  end.
Proof.
  intros userId. unfold completeTask, handle. fold userId.
  erewrite bind_Val by (unfold tasks_findOne; reflexivity).
  destruct (head _) as [task|]; [|reflexivity].
  destruct (completed task); [reflexivity|].
  erewrite bind_Val by (unfold tasks_updateOne; reflexivity).
  erewrite bind_Val
    by (apply (users_updateOne_inc_numeric _ _ _ _ _ (incrementUpdate_numeric task));
        now left).
  reflexivity.
Qed.

(** POST /api/tasks as a function of the store. *)
Lemma createTask_eq description reward timeReward body_userId uuid now s :
  createTask description reward timeReward body_userId uuid now s =
  let pointReward := or_zero (parseInt reward) in
  let timeRewardValue := or_zero (parseInt timeReward) in
  if negb (truthy description) then
    (s, res_status 400 (Error "Description is required"))
  else if (pointReward <=? 0) && (timeRewardValue <=? 0) then
    (s, res_status 400
          (Error "At least one reward (points or time) must be greater than 0"))
  else
    let newTask :=
      {| _id := uuid; userId := default_user body_userId; description := description;
         reward := pointReward; timeReward := timeRewardValue;
         completed := false; createdAt := now; completedAt := None |} in
    if decide (uuid ∈ (doc_id <$> tasks s)) then
      (s, res_status 500
            (Failure "Failed to create task" "Document already exists with the given _id"))
    else
      ({| users := users s; tasks := tasks s ++ [newTask] |},
       res_status 201 (TaskJson (Some newTask))).
Proof.
  unfold createTask, handle. cbn zeta.
  destruct (negb (truthy description)); [reflexivity|].
  destruct (_ && _); [reflexivity|].
  unfold tasks_insertOne, mbind, M_bind. cbn [doc_id Task_document _id].
  destruct (decide _); reflexivity.
Qed.

(** GET /api/tasks as a function of the store. *)
Lemma listTasks_eq query_userId s :
  listTasks query_userId s =
  (s, res_status 200
        (Tasks (filter (fun t => userId t = or_default_user query_userId) (tasks s)))).
Proof. reflexivity. Qed.

(** GET /api/rewards/summary reports the ledger of the user and changes
    no counter. *)
Lemma summary_spec query_userId s :
  let userId := or_default_user query_userId in
  exists s' name,
    summary StringToNumber query_userId s =
    (s', res_status 200
           (SummaryJson
              {| Summary.totalEarned := VNum (Int (counter_of s userId totalEarned));
                 Summary.totalUsed := VNum (Int (counter_of s userId totalUsed));
                 Summary.balance := Int (pointBalance s userId);
                 Summary.tasksCompleted := VNum (Int (counter_of s userId tasksCompleted));
                 Summary.timeEarned := VNum (Int (counter_of s userId timeEarned));
                 Summary.timeUsed := VNum (Int (counter_of s userId timeUsed));
                 Summary.timeBalance := Int (timeBalance s userId);
                 Summary.user := name |}))
    /\ tasks s' = tasks s
    /\ forall u c, counter_of s' u c = counter_of s u c.
Proof.
  intros userId. unfold summary, handle. fold userId.
  destruct (getOrCreateUser_spec userId s) as (s1 & user & Hg & Ht & Hu & Hc & Hf).
  rewrite (bind_Val _ _ _ _ _ Hg). rewrite !Hf.
  eexists _, _. split; [reflexivity|]. split; assumption.
Qed.

(** POST /api/rewards/use with a number as amount. *)
Lemma spendPoints_number (a : Z) body_userId s :
  let userId := default_user body_userId in
  let r := spendPoints StringToNumber (VNum (Int a)) body_userId s in
  (a <= 0 -> r = (s, res_status 400 (Error "Valid amount is required")))
  /\ (0 < a -> pointBalance s userId < a ->
       r.2 = res_status 400
               (Insufficient "Insufficient balance" (Int (pointBalance s userId))
                  (VNum (Int a)))
       /\ tasks r.1 = tasks s
       /\ forall u c, counter_of r.1 u c = counter_of s u c)
  /\ (0 < a <= pointBalance s userId ->
       r.2 = res_status 200
               (Spent "Points spent successfully" (VNum (Int a))
                  (Int (pointBalance s userId - a)))
       /\ tasks r.1 = tasks s
       /\ forall u c, counter_of r.1 u c
            = counter_of s u c
              + (if decide (userId = u) then inc_total c [(totalUsed, a)] else 0)).
Proof.
  intros userId r. subst r. unfold spendPoints, handle. fold userId.
  destruct (negb (truthy (VNum (Int a))) || le StringToNumber (VNum (Int a)) (VNum (Int 0)))
    eqn:Hv.
  { assert (~ 0 < a) by (rewrite <- (valid_amount _ a eq_refl); congruence).
    split; [reflexivity|]. split; intros; lia. }
  apply (valid_amount _ a eq_refl) in Hv.
  split; [intros; lia|].
  destruct (getOrCreateUser_spec userId s) as (s1 & user & Hg & Ht & Hu & Hc & Hf).
  rewrite (bind_Val _ _ _ _ _ Hg). rewrite !Hf.
  change (sub StringToNumber (VNum (Int (counter_of s userId totalEarned)))
            (VNum (Int (counter_of s userId totalUsed))))
    with (Int (pointBalance s userId)).
  unfold lt, num_lt, ToNumber.
  destruct (Z.ltb_spec (pointBalance s userId) a) as [Hlt|Hge].
  - split; [|intros; lia]. intros _ _. cbn. auto.
  - split; [intros; lia|]. intros _.
    erewrite bind_Val
      by (apply (users_updateOne_inc_numeric _ _ [(totalUsed, a)]); [reflexivity|now right]).
    cbn [mret M_ret fst snd tasks]. repeat split; [assumption|].
    intros u c. rewrite counter_of_inc, Hc. reflexivity.
Qed.

(** POST /api/rewards/use-time with a number as minutes. *)
Lemma spendTime_number (a : Z) activity body_userId s :
  let userId := default_user body_userId in
  let r := spendTime StringToNumber (VNum (Int a)) activity body_userId s in
  (a <= 0 -> r = (s, res_status 400 (Error "Valid time amount is required")))
  /\ (0 < a -> timeBalance s userId < a ->
       r.2 = res_status 400
               (InsufficientTime "Insufficient time balance" (Int (timeBalance s userId))
                  (VNum (Int a)))
       /\ tasks r.1 = tasks s
       /\ forall u c, counter_of r.1 u c = counter_of s u c)
  /\ (0 < a <= timeBalance s userId ->
       (exists act, r.2 = res_status 200
               (TimeSpent act (VNum (Int a)) (Int (timeBalance s userId - a))))
       /\ tasks r.1 = tasks s
       /\ forall u c, counter_of r.1 u c
            = counter_of s u c
              + (if decide (userId = u) then inc_total c [(timeUsed, a)] else 0)).
Proof.
  intros userId r. subst r. unfold spendTime, handle. fold userId.
  destruct (negb (truthy (VNum (Int a))) || le StringToNumber (VNum (Int a)) (VNum (Int 0)))
    eqn:Hv.
  { assert (~ 0 < a) by (rewrite <- (valid_amount _ a eq_refl); congruence).
    split; [reflexivity|]. split; intros; lia. }
  apply (valid_amount _ a eq_refl) in Hv.
  split; [intros; lia|].
  destruct (getOrCreateUser_spec userId s) as (s1 & user & Hg & Ht & Hu & Hc & Hf).
  rewrite (bind_Val _ _ _ _ _ Hg). rewrite !Hf.
  change (sub StringToNumber (VNum (Int (counter_of s userId timeEarned)))
            (VNum (Int (counter_of s userId timeUsed))))
    with (Int (timeBalance s userId)).
  unfold lt, num_lt, ToNumber.
  destruct (Z.ltb_spec (timeBalance s userId) a) as [Hlt|Hge].
  - split; [|intros; lia]. intros _ _. cbn. auto.
  - split; [intros; lia|]. intros _.
    erewrite bind_Val
      by (apply (users_updateOne_inc_numeric _ _ [(timeUsed, a)]); [reflexivity|now right]).
    cbn [mret M_ret fst snd tasks]. repeat split; [eexists; reflexivity|assumption|].
    intros u c. rewrite counter_of_inc, Hc. reflexivity.
Qed.

Lemma inc_total_credited c reward timeReward :
  inc_total c (credited reward timeReward)
  = match c with
    | tasksCompleted => 1
    | totalEarned => Z.max 0 reward
    | timeEarned => Z.max 0 timeReward
    | _ => 0
    end.
Proof.
  unfold credited.
  destruct (Z.gtb_spec reward 0), (Z.gtb_spec timeReward 0), c;
    cbn; repeat case_decide; try congruence; lia.
Qed.

Lemma inc_total_single c f a :
  inc_total c [(f, a)] = if decide (f = c) then a else 0.
Proof. cbn. case_decide; lia. Qed.

Lemma ledger_ok_same s s' :
  (forall u c, counter_of s' u c = counter_of s u c) -> ledger_ok s -> ledger_ok s'.
Proof.
  intros Hc Hok u. destruct (Hok u) as (Hn & Hp & Ht).
  unfold pointBalance, timeBalance in *. rewrite !Hc.
  split; [intros c; rewrite Hc; apply Hn|split; assumption].
Qed.

(** The counters after a request: each one is the counter before plus a
    non-negative amount, and only [totalUsed] and [timeUsed] of a spend
    that the balance covers grow on the debit side. *)
Lemma app_counters req s :
  req <> DeleteCleanup ->
  ledger_ok s ->
  ledger_ok (app StringToNumber req s).1
  /\ forall u c, counter_of s u c <= counter_of (app StringToNumber req s).1 u c.
Proof.
  intros Hreq Hok. destruct req; cbn [app]; try congruence.
  - split; [exact Hok|reflexivity].
  - rewrite createTask_eq. cbn zeta.
    repeat (match goal with |- context [if ?b then _ else _] => destruct b end);
      (split; [exact Hok|reflexivity]).
  - rewrite completeTask_eq. cbn zeta.
    destruct (head _) as [task|]; [|split; [exact Hok|reflexivity]].
    destruct (completed task); [split; [exact Hok|reflexivity]|]. cbn [fst].
    assert (Hc : forall u c, counter_of s u c <= counter_of
              {| users := <[or_default_user body_userId :=
                   foldl inc_field (upserted (or_default_user body_userId)
                     (users s !! or_default_user body_userId))
                     (credited (reward task) (timeReward task))]> (users s);
                 tasks := update_first (fun t => _id t = taskId) (set_completed now)
                            (tasks s) |} u c).
    { intros u c. rewrite (counter_of_inc (T:=Task)).
      case_decide; [|lia]. rewrite inc_total_credited. destruct c; lia. }
    split; [|exact Hc].
    intros u. destruct (Hok u) as (Hn & Hp & Ht).
    split; [intros c; specialize (Hn c); specialize (Hc u c); lia|].
    unfold pointBalance, timeBalance in *.
    rewrite !(counter_of_inc (T:=Task)), !inc_total_credited.
    case_decide; lia.
  - destruct (spendPoints_cases amount body_userId s) as [_ [[_ Hc]|(a & _ & Ha & _ & Hc)]].
    + split; [now apply (ledger_ok_same s)|intros u c; now rewrite Hc].
    + split; [|intros u c; rewrite Hc, inc_total_single; repeat case_decide; lia].
      intros u. destruct (Hok u) as (Hn & Hp & Ht).
      unfold pointBalance, timeBalance in *.
      split; [intros c; specialize (Hn c)|]; rewrite !Hc, !inc_total_single;
        repeat case_decide; try congruence; subst; lia.
  - destruct (spendTime_cases minutes activity body_userId s)
      as [_ [[_ Hc]|(a & _ & Ha & _ & Hc)]].
    + split; [now apply (ledger_ok_same s)|intros u c; now rewrite Hc].
    + split; [|intros u c; rewrite Hc, inc_total_single; repeat case_decide; lia].
      intros u. destruct (Hok u) as (Hn & Hp & Ht).
      unfold pointBalance, timeBalance in *.
      split; [intros c; specialize (Hn c)|]; rewrite !Hc, !inc_total_single;
        repeat case_decide; try congruence; subst; lia.
  - destruct (summary_spec query_userId s) as (s' & nm & Hs & _ & Hc).
    rewrite Hs. cbn [fst]. split; [now apply (ledger_ok_same s)|intros u c; now rewrite Hc].
Qed.

Lemma zeroed_ledger_ok s : zeroed s -> ledger_ok s.
Proof.
  intros Hz u. unfold pointBalance, timeBalance. rewrite !Hz.
  split; [intros c; rewrite Hz|]; lia.
Qed.

Lemma empty_zeroed : zeroed (Store.empty : Store Task).
Proof. intros u c. reflexivity. Qed.

Lemma app_ledger_ok req s : ledger_ok s -> ledger_ok (app StringToNumber req s).1.
Proof.
  intros Hok.
  destruct req; try (now apply app_counters).
  apply zeroed_ledger_ok, empty_zeroed.
Qed.

Lemma run_ledger_ok reqs : forall s, ledger_ok s -> ledger_ok (run StringToNumber reqs s).
Proof.
  induction reqs as [|req reqs IH]; intros s Hok; [exact Hok|].
  cbn. apply IH. now apply app_ledger_ok.
Qed.

(** *** The keys of the tasks *)

Lemma app_keys req s :
  keys_unique s -> keys_unique (app StringToNumber req s).1.
Proof.
  unfold keys_unique. intros Hk. destruct req; cbn [app].
  - exact Hk.
  - rewrite createTask_eq. cbn zeta.
    repeat (match goal with |- context [if ?b then _ else _] => destruct b end);
      try exact Hk.
    cbn [fst tasks]. rewrite fmap_app. apply NoDup_app. split; [exact Hk|].
    split; [|apply NoDup_singleton].
    intros x Hx Hx'. apply list_elem_of_singleton in Hx'. cbn in Hx'. now subst x.
  - rewrite completeTask_eq. cbn zeta.
    destruct (head _) as [task|]; [|exact Hk].
    destruct (completed task); [exact Hk|]. cbn [fst tasks].
    now rewrite update_first_ids.
  - destruct (spendPoints_cases amount body_userId s) as [-> _]. exact Hk.
  - destruct (spendTime_cases minutes activity body_userId s) as [-> _]. exact Hk.
  - destruct (summary_spec query_userId s) as (s' & nm & Hs & Ht & _).
    rewrite Hs. cbn [fst]. now rewrite Ht.
  - apply NoDup_nil_2.
Qed.

Lemma run_keys reqs : forall s, keys_unique s -> keys_unique (run StringToNumber reqs s).
Proof.
  induction reqs as [|req reqs IH]; intros s Hk; [exact Hk|].
  cbn. apply IH. now apply app_keys.
Qed.

Lemma empty_keys : keys_unique (Store.empty : Store Task).
Proof. apply NoDup_nil_2. Qed.

(** Without the administrative wipe, no task leaves the collection. *)
Lemma app_keeps_ids req s :
  req <> DeleteCleanup ->
  (doc_id <$> tasks s) ⊆ (doc_id <$> tasks (app StringToNumber req s).1).
Proof.
  intros Hreq. destruct req; cbn [app]; try congruence.
  - reflexivity.
  - rewrite createTask_eq. cbn zeta.
    repeat (match goal with |- context [if ?b then _ else _] => destruct b end);
      try reflexivity.
    cbn [fst tasks]. rewrite fmap_app. intros x Hx. apply elem_of_app. now left.
  - rewrite completeTask_eq. cbn zeta.
    destruct (head _) as [task|]; [|reflexivity].
    destruct (completed task); [reflexivity|]. cbn [fst tasks].
    now rewrite update_first_ids.
  - now destruct (spendPoints_cases amount body_userId s) as [-> _].
  - now destruct (spendTime_cases minutes activity body_userId s) as [-> _].
  - destruct (summary_spec query_userId s) as (s' & nm & Hs & Ht & _).
    rewrite Hs. cbn [fst]. now rewrite Ht.
Qed.

(** A response carries a created task only when POST /api/tasks inserted
    it under a key that no stored task had. *)
Lemma created_task_fresh req s t :
  created_task (app StringToNumber req s).2 = Some t ->
  completed t = false
  /\ (_id t ∉ (doc_id <$> tasks s))
  /\ (_id t ∈ (doc_id <$> tasks (app StringToNumber req s).1))
  /\ uuid_of req = Some (_id t).
Proof.
  unfold created_task.
  destruct req as [q|d r tr body_userId uuid now|taskId body_userId now
                  |amount body_userId|minutes activity body_userId|query_userId|];
    cbn [app].
  - discriminate.
  - rewrite createTask_eq. cbn zeta.
    destruct (negb (truthy d)); [discriminate|].
    destruct (_ && _); [discriminate|].
    destruct (decide (uuid ∈ _)) as [|Hfresh]; [discriminate|].
    cbn [snd fst json status res_status tasks]. rewrite decide_True by reflexivity.
    intros [= <-]. cbn [completed _id uuid_of]. repeat split; [assumption|].
    rewrite fmap_app. apply elem_of_app. right. cbn. left.
  - rewrite completeTask_eq. cbn zeta.
    destruct (head (filter _ (tasks s))) as [task|]; [|discriminate].
    destruct (completed task); [discriminate|]. cbn [snd json status res_status].
    destruct (head _); discriminate.
  - destruct (spendPoints_cases amount body_userId s)
      as [_ [[[Hs|Hs] _]|(a & _ & _ & -> & _)]]; try discriminate;
      destruct (json _) as [| [] | | | | | | | | | |]; try discriminate;
      rewrite Hs; discriminate.
  - destruct (spendTime_cases minutes activity body_userId s)
      as [_ [[[Hs|Hs] _]|(a & _ & _ & [act ->] & _)]]; try discriminate;
      destruct (json _) as [| [] | | | | | | | | | |]; try discriminate;
      rewrite Hs; discriminate.
  - destruct (summary_spec query_userId s) as (s' & nm & -> & _). discriminate.
  - discriminate.
Qed.

Lemma created_cons req reqs s :
  created StringToNumber (req :: reqs) s
  = match created_task (app StringToNumber req s).2 with
    | Some t => t :: created StringToNumber reqs (app StringToNumber req s).1
    | None => created StringToNumber reqs (app StringToNumber req s).1
    end.
Proof. reflexivity. Qed.

Lemma created_distinct reqs : forall s,
  DeleteCleanup ∉ reqs ->
  NoDup (_id <$> created StringToNumber reqs s)
  /\ (forall t, t ∈ created StringToNumber reqs s ->
        completed t = false /\ (_id t ∉ (doc_id <$> tasks s))
        /\ (_id t ∈ (doc_id <$> tasks (run StringToNumber reqs s))))
  /\ (doc_id <$> tasks s) ⊆ (doc_id <$> tasks (run StringToNumber reqs s)).
Proof.
  induction reqs as [|req reqs IH]; intros s Hreqs.
  - cbn. split; [apply NoDup_nil_2|]. split; [intros t Ht; inversion Ht|reflexivity].
  - apply not_elem_of_cons in Hreqs as [Hreq Hreqs].
    destruct (IH (app StringToNumber req s).1 Hreqs) as (Hnd & Hall & Hsub).
    pose proof (app_keeps_ids req s (not_eq_sym Hreq)) as Hkeep.
    rewrite created_cons.
    change (run StringToNumber (req :: reqs) s)
      with (run StringToNumber reqs (app StringToNumber req s).1).
    destruct (created_task (app StringToNumber req s).2) as [t|] eqn:Ht.
    + destruct (created_task_fresh req s t Ht) as (Hc & Hfresh & Hin & _).
      split; [|split].
      * rewrite fmap_cons. apply NoDup_cons. split; [|exact Hnd].
        intros Hdup. apply list_elem_of_fmap in Hdup as (t' & Heq & Ht').
        destruct (Hall t' Ht') as (_ & Hn & _). apply Hn. now rewrite <- Heq.
      * intros t' Ht'. apply elem_of_cons in Ht' as [->|Ht'].
        -- repeat split; [assumption..|]. now apply Hsub.
        -- destruct (Hall t' Ht') as (? & Hn & ?). repeat split; [assumption| |assumption].
           intros Hx. apply Hn. now apply Hkeep.
      * etransitivity; eassumption.
    + split; [exact Hnd|]. split; [|etransitivity; eassumption].
      intros t' Ht'. destruct (Hall t' Ht') as (? & Hn & ?).
      repeat split; [assumption| |assumption].
      intros Hx. apply Hn. now apply Hkeep.
Qed.

(** Every stored task and every created task carries an identifier that
    [uuidv4()] returned. *)
Lemma app_ids_issued req s x :
  x ∈ (doc_id <$> tasks (app StringToNumber req s).1) ->
  x ∈ (doc_id <$> tasks s) \/ uuid_of req = Some x.
Proof.
  destruct req as [q|d r tr body_userId uuid now|taskId body_userId now
                  |amount body_userId|minutes activity body_userId|query_userId|];
    cbn [app uuid_of].
  - auto.
  - rewrite createTask_eq. cbn zeta.
    destruct (negb (truthy d)); [auto|].
    destruct (_ && _); [auto|].
    destruct (decide (uuid ∈ _)) as [|Hfresh]; [auto|].
    cbn [fst tasks]. rewrite fmap_app. intros Hx. apply elem_of_app in Hx as [Hx|Hx].
    + now left.
    + right. apply list_elem_of_singleton in Hx. now subst x.
  - rewrite completeTask_eq. cbn zeta.
    destruct (head _) as [task|]; [|auto].
    destruct (completed task); [auto|]. cbn [fst tasks].
    rewrite update_first_ids by reflexivity. auto.
  - destruct (spendPoints_cases amount body_userId s) as [-> _]. auto.
  - destruct (spendTime_cases minutes activity body_userId s) as [-> _]. auto.
  - destruct (summary_spec query_userId s) as (s' & nm & Hs & Ht & _).
    rewrite Hs. cbn [fst]. rewrite Ht. auto.
  - cbn. intros Hx. inversion Hx.
Qed.

Lemma run_ids_issued reqs : forall s x,
  x ∈ (doc_id <$> tasks (run StringToNumber reqs s)) ->
  x ∈ (doc_id <$> tasks s) \/ x ∈ uuids reqs.
Proof.
  induction reqs as [|req reqs IH]; intros s x Hx; [now left|].
  change (run StringToNumber (req :: reqs) s)
    with (run StringToNumber reqs (app StringToNumber req s).1) in Hx.
  unfold uuids. cbn [omap list_omap].
  destruct (IH _ _ Hx) as [Hx'|Hx'].
  - destruct (app_ids_issued req s x Hx') as [?|Hu]; [now left|].
    right. rewrite Hu. left.
  - right. destruct (uuid_of req); [now right|assumption].
Qed.

Lemma created_ids_issued reqs : forall s,
  (_id <$> created StringToNumber reqs s) `sublist_of` uuids reqs.
Proof.
  induction reqs as [|req reqs IH]; intros s; [constructor|].
  rewrite created_cons. unfold uuids. cbn [omap list_omap].
  destruct (created_task (app StringToNumber req s).2) as [t|] eqn:Ht.
  - destruct (created_task_fresh req s t Ht) as (_ & _ & _ & ->).
    rewrite fmap_cons. apply sublist_skip, IH.
  - destruct (uuid_of req); [apply sublist_cons|]; apply IH.
Qed.

End Spec.

End ServerSpec.

(** ** The handlers of the second variant *)

Module ApiSpec.

Import Api.

Section Spec.

Variable StringToNumber : string -> num.

Implicit Types (s : Store Task) (t : Task).

Lemma api_incrementUpdate_numeric t :
  mapM (fun fv => z ← inc_operand fv.2; Some (fv.1, z)) (incrementUpdate t)
  = Some (credited (reward t) (timeReward t)).
Proof.
  unfold incrementUpdate, credited.
  destruct (reward t >? 0), (timeReward t >? 0); reflexivity.
Qed.

(** POST /api/tasks/:id/complete as a function of the store. *)
Lemma api_completeTask_eq taskId body_userId now s :
  let userId := default_user body_userId in
  completeTask taskId body_userId now s =
  match head (filter (fun t => _id t = taskId) (tasks s)) with
  | None => (s, res_status 404 (Error "Task not found"))
  | Some task =>
      if completed task then (s, res_status 400 (Error "Task already completed"))
      else
        let tasks' := update_first (fun t => _id t = taskId) (set_completed now) (tasks s) in
        ({| users := <[userId := foldl inc_field (upserted userId (users s !! userId))
                                    (credited (reward task) (timeReward task))]> (users s);
            tasks := tasks' |},
         res_status 200 (TaskJson (head (filter (fun t => _id t = taskId) tasks'))))
  end.
Proof.
  intros userId. unfold completeTask, handle. fold userId.
  erewrite bind_Val by (unfold tasks_findOne; reflexivity).
  destruct (head _) as [task|]; [|reflexivity].
  destruct (completed task); [reflexivity|].
  erewrite bind_Val by (unfold tasks_updateOne; reflexivity).
  erewrite bind_Val
    by (apply (users_updateOne_inc_numeric _ _ _ _ _ (api_incrementUpdate_numeric task));
        now left).
  reflexivity.
Qed.

(** POST /api/tasks as a function of the store. *)
Lemma api_createTask_eq name reward timeReward category priority notes uuid now s :
  createTask StringToNumber name reward timeReward category priority notes uuid now s =
  if negb (truthy name) then
    (s, res_status 400 (Error "Task name is required"))
  else
    let task :=
      {| _id := uuid; name := name;
         reward := or_zero (ToNumber StringToNumber (or_else (VNum (Int 0)) reward));
         timeReward := or_zero (ToNumber StringToNumber (or_else (VNum (Int 0)) timeReward));
         category := or_else (VStr "general") category;
         priority := or_else (VStr "medium") priority;
         notes := or_else (VStr "") notes;
         completed := false; createdAt := now;
         completedAt := None; updatedAt := None |} in
    if decide (uuid ∈ (doc_id <$> tasks s)) then
      (s, res_status 500
            (Failure "Failed to create task" "Document already exists with the given _id"))
    else
      ({| users := users s; tasks := tasks s ++ [task] |},
       res_status 201 (TaskJson (Some task))).
Proof.
  unfold createTask, handle. cbn zeta.
  destruct (negb (truthy name)); [reflexivity|].
  unfold tasks_insertOne, mbind, M_bind. cbn [doc_id Task_document _id].
  destruct (decide _); reflexivity.
Qed.

(** GET /api/tasks returns the whole collection. *)
Lemma api_listTasks_eq s : listTasks s = (s, res_status 200 (Tasks (tasks s))).
Proof.
  unfold listTasks, handle, tasks_find, mbind, M_bind, mret, M_ret.
  do 3 f_equal. induction (tasks s) as [|t l IH]; [reflexivity|].
  rewrite filter_cons, decide_True by exact I. now rewrite IH.
Qed.

Lemma api_getOrCreateUser_tasks userId now s :
  exists s' user,
    getOrCreateUser userId now s = (s', Val user) /\ tasks s' = tasks s.
Proof.
  unfold getOrCreateUser, users_findOne, users_insertOne, mbind, M_bind, mret, M_ret.
  cbn [Store._id].
  destruct (users s !! userId) as [d|] eqn:E; rewrite ?E; eexists _, _; split; reflexivity.
Qed.

Lemma users_updateOne_inc_tasks userId inc upsert s :
  tasks (users_updateOne_inc userId inc upsert s).1 = tasks s.
Proof.
  unfold users_updateOne_inc.
  destruct (mapM _ inc); [|reflexivity].
  destruct (users s !! userId); [reflexivity|]. now destruct upsert.
Qed.

Lemma api_spendPoints_tasks amount body_userId now s :
  let r := spendPoints StringToNumber amount body_userId now s in
  tasks r.1 = tasks s /\ status r.2 <> 201%nat.
Proof.
  intros r. subst r. unfold spendPoints, handle.
  destruct (negb _ || _); [split; [reflexivity|discriminate]|].
  destruct (api_getOrCreateUser_tasks (default_user body_userId) now s)
    as (s1 & user & Hg & Ht).
  rewrite (bind_Val _ _ _ _ _ Hg).
  destruct (lt _ _ _); [split; [assumption|discriminate]|].
  pose proof (users_updateOne_inc_tasks (default_user body_userId)
                [(totalUsed, amount)] false s1) as Hu.
  unfold mbind, M_bind.
  destruct (users_updateOne_inc _ _ _ s1) as [s2 [[]|e]]; cbn in *;
    (split; [congruence|discriminate]).
Qed.

Lemma api_spendTime_tasks minutes activity body_userId now s :
  let r := spendTime StringToNumber minutes activity body_userId now s in
  tasks r.1 = tasks s /\ status r.2 <> 201%nat.
Proof.
  intros r. subst r. unfold spendTime, handle.
  destruct (negb _ || _); [split; [reflexivity|discriminate]|].
  destruct (api_getOrCreateUser_tasks (default_user body_userId) now s)
    as (s1 & user & Hg & Ht).
  rewrite (bind_Val _ _ _ _ _ Hg).
  destruct (lt _ _ _); [split; [assumption|discriminate]|].
  pose proof (users_updateOne_inc_tasks (default_user body_userId)
                [(timeUsed, minutes)] false s1) as Hu.
  unfold mbind, M_bind.
  destruct (users_updateOne_inc _ _ _ s1) as [s2 [[]|e]]; cbn in *;
    (split; [congruence|discriminate]).
Qed.

Lemma api_summary_tasks query_userId now s :
  let r := summary StringToNumber query_userId now s in
  tasks r.1 = tasks s /\ status r.2 <> 201%nat.
Proof.
  intros r. subst r. unfold summary, handle.
  destruct (api_getOrCreateUser_tasks (or_default_user query_userId) now s)
    as (s1 & user & Hg & Ht).
  rewrite (bind_Val _ _ _ _ _ Hg). split; [assumption|discriminate].
Qed.

Lemma api_created_task_status (r : response Task) :
  status r <> 201%nat -> created_task r = None.
Proof.
  intros Hs. unfold created_task. destruct (json r) as [| [] | | | | | | | | | |]; try reflexivity.
  now rewrite decide_False.
Qed.

(** PUT /api/tasks/:id and DELETE /api/tasks/:id add no key. *)
Lemma api_updateTask_tasks taskId name reward timeReward category priority notes now s :
  let r := updateTask StringToNumber taskId name reward timeReward category priority
             notes now s in
  doc_id <$> tasks r.1 = doc_id <$> tasks s /\ status r.2 <> 201%nat.
Proof.
  intros r. subst r. unfold updateTask, handle. cbn zeta.
  destruct (negb (truthy name)); [split; [reflexivity|discriminate]|].
  erewrite bind_Val by (unfold tasks_updateOne; reflexivity).
  destruct (_ =? _)%nat;
    [|erewrite bind_Val by (unfold tasks_findOne; reflexivity)];
    cbn [mret M_ret fst snd tasks];
    (split; [now rewrite update_first_ids|discriminate]).
Qed.

Lemma api_deleteTask_tasks taskId s :
  let r := deleteTask taskId s in
  tasks r.1 `sublist_of` tasks s /\ status r.2 <> 201%nat.
Proof.
  intros r. subst r. unfold deleteTask, handle.
  erewrite bind_Val by (unfold tasks_deleteOne; reflexivity).
  destruct (_ =? _)%nat; cbn [mret M_ret fst snd tasks];
    (split; [apply delete_first_sublist|discriminate]).
Qed.

(** A response carries a created task only when POST /api/tasks inserted
    it under a key that no stored task had. *)
Lemma api_created_task_fresh req s t :
  created_task (app StringToNumber req s).2 = Some t ->
  completed t = false
  /\ (_id t ∉ (doc_id <$> tasks s))
  /\ uuid_of req = Some (_id t).
Proof.
  destruct req as [|nm r tr cat pr nt uuid now|taskId nm r tr cat pr nt now|taskId
                  |taskId body_userId now|amount body_userId now
                  |minutes activity body_userId now|query_userId now| |];
    cbn [app].
  - rewrite api_listTasks_eq. discriminate.
  - rewrite api_createTask_eq. cbn zeta. unfold created_task.
    destruct (negb (truthy nm)); [discriminate|].
    destruct (decide (uuid ∈ _)) as [|Hfresh]; [discriminate|].
    cbn [snd fst json status res_status tasks]. rewrite decide_True by reflexivity.
    intros [= <-]. cbn [completed _id uuid_of]. repeat split. assumption.
  - rewrite api_created_task_status by apply api_updateTask_tasks. discriminate.
  - rewrite api_created_task_status by apply api_deleteTask_tasks. discriminate.
  - rewrite api_created_task_status; [discriminate|].
    rewrite api_completeTask_eq. cbn zeta.
    destruct (head (filter _ (tasks s))) as [task|]; [|discriminate].
    destruct (completed task); discriminate.
  - rewrite api_created_task_status by apply api_spendPoints_tasks. discriminate.
  - rewrite api_created_task_status by apply api_spendTime_tasks. discriminate.
  - rewrite api_created_task_status by apply api_summary_tasks. discriminate.
  - discriminate.
  - discriminate.
Qed.

Lemma api_app_ids_issued req s x :
  x ∈ (doc_id <$> tasks (app StringToNumber req s).1) ->
  x ∈ (doc_id <$> tasks s) \/ uuid_of req = Some x.
Proof.
  destruct req as [|nm r tr cat pr nt uuid now|taskId nm r tr cat pr nt now|taskId
                  |taskId body_userId now|amount body_userId now
                  |minutes activity body_userId now|query_userId now| |];
    cbn [app uuid_of].
  - rewrite api_listTasks_eq. auto.
  - rewrite api_createTask_eq. cbn zeta.
    destruct (negb (truthy nm)); [auto|].
    destruct (decide (uuid ∈ _)) as [|Hfresh]; [auto|].
    cbn [fst tasks]. rewrite fmap_app. intros Hx. apply elem_of_app in Hx as [Hx|Hx].
    + now left.
    + right. apply list_elem_of_singleton in Hx. now subst x.
  - destruct (api_updateTask_tasks taskId nm r tr cat pr nt now s) as [-> _]. auto.
  - destruct (api_deleteTask_tasks taskId s) as [Hsub _]. intros Hx. left.
    eapply elem_of_sublist; [exact Hx|]. now apply fmap_sublist.
  - rewrite api_completeTask_eq. cbn zeta.
    destruct (head _) as [task|]; [|auto].
    destruct (completed task); [auto|]. cbn [fst tasks].
    rewrite update_first_ids by reflexivity. auto.
  - destruct (api_spendPoints_tasks amount body_userId now s) as [-> _]. auto.
  - destruct (api_spendTime_tasks minutes activity body_userId now s) as [-> _]. auto.
  - destruct (api_summary_tasks query_userId now s) as [-> _]. auto.
  - cbn. intros Hx. inversion Hx.
  - cbn. auto.
Qed.

Lemma api_run_ids_issued reqs : forall s x,
  x ∈ (doc_id <$> tasks (run StringToNumber reqs s)) ->
  x ∈ (doc_id <$> tasks s) \/ x ∈ uuids reqs.
Proof.
  induction reqs as [|req reqs IH]; intros s x Hx; [now left|].
  change (run StringToNumber (req :: reqs) s)
    with (run StringToNumber reqs (app StringToNumber req s).1) in Hx.
  unfold uuids. cbn [omap list_omap].
  destruct (IH _ _ Hx) as [Hx'|Hx'].
  - destruct (api_app_ids_issued req s x Hx') as [?|Hu]; [now left|].
    right. rewrite Hu. left.
  - right. destruct (uuid_of req); [now right|assumption].
Qed.

Lemma api_created_cons req reqs s :
  created StringToNumber (req :: reqs) s
  = match created_task (app StringToNumber req s).2 with
    | Some t => t :: created StringToNumber reqs (app StringToNumber req s).1
    | None => created StringToNumber reqs (app StringToNumber req s).1
    end.
Proof. reflexivity. Qed.

Lemma api_created_ids_issued reqs : forall s,
  (_id <$> created StringToNumber reqs s) `sublist_of` uuids reqs.
Proof.
  induction reqs as [|req reqs IH]; intros s; [constructor|].
  rewrite api_created_cons. unfold uuids. cbn [omap list_omap].
  destruct (created_task (app StringToNumber req s).2) as [t|] eqn:Ht.
  - destruct (api_created_task_fresh req s t Ht) as (_ & _ & ->).
    rewrite fmap_cons. apply sublist_skip, IH.
  - destruct (uuid_of req); [apply sublist_cons|]; apply IH.
Qed.

End Spec.

End ApiSpec.

(** * The properties of the specification *)

(** C9: [spendPoints] answers 400 "Valid amount is required" to every
    request whose amount is less than or equal to 0 (whose [amount <= 0]
    holds, which for a number [a] is [a <= 0]), [spendTime] answers 400
    "Valid time amount is required" to every request whose minutes are less
    than or equal to 0, and in both cases the store, hence every counter, is
    left as it was. *)
Theorem spend_rejects_non_positive (StringToNumber : string -> num)
    (s : Store Server.Task) (amount minutes activity : value)
    (body_userId : option string) :
  le StringToNumber amount (VNum (Int 0)) = true ->
  le StringToNumber minutes (VNum (Int 0)) = true ->
  Server.spendPoints StringToNumber amount body_userId s
  = (s, res_status 400 (Error "Valid amount is required"))
  /\ Server.spendTime StringToNumber minutes activity body_userId s
     = (s, res_status 400 (Error "Valid time amount is required")).
Proof.
  intros Ha Hm. unfold Server.spendPoints, Server.spendTime, handle.
  rewrite Ha, Hm, !orb_true_r. split; reflexivity.
Qed.

Lemma spend_rejects_non_positive_witness :
  le StringToNumber_int (VNum (Int (-3))) (VNum (Int 0)) = true
  /\ le StringToNumber_int (VNum (Int 0)) (VNum (Int 0)) = true
  /\ Server.spendPoints StringToNumber_int (VNum (Int (-3))) (Some "alice") alice_store
     = (alice_store, res_status 400 (Error "Valid amount is required"))
  /\ Server.spendTime StringToNumber_int (VNum (Int 0)) VUndefined (Some "alice")
       alice_store
     = (alice_store, res_status 400 (Error "Valid time amount is required")).
Proof.
  split; [reflexivity|]. split; [reflexivity|].
  apply (spend_rejects_non_positive StringToNumber_int alice_store (VNum (Int (-3)))
           (VNum (Int 0)) VUndefined (Some "alice")); reflexivity.
Defined.

(** C5: for every store and every amount with 0 < amount <= pointBalance,
    [spendPoints] answers 200 with [spent = amount] and
    [newBalance = pointBalance - amount], adds exactly [amount] to
    [totalUsed], and the summary requested next for the same user reports a
    balance that is smaller than the one reported before by exactly
    [amount]. *)
Theorem spendPoints_then_summary (StringToNumber : string -> num)
    (s : Store Server.Task) (a : Z) (body_userId query_userId : option string) :
  let userId := default_user body_userId in
  or_default_user query_userId = userId ->
  0 < a <= pointBalance s userId ->
  let r := Server.spendPoints StringToNumber (VNum (Int a)) body_userId s in
  r.2 = res_status 200
          (Spent "Points spent successfully" (VNum (Int a)) (Int (pointBalance s userId - a)))
  /\ counter_of r.1 userId totalUsed = counter_of s userId totalUsed + a
  /\ exists before after,
       (Server.summary StringToNumber query_userId s).2
       = res_status 200 (SummaryJson before)
       /\ (Server.summary StringToNumber query_userId r.1).2
          = res_status 200 (SummaryJson after)
       /\ Summary.balance before = Int (pointBalance s userId)
       /\ Summary.balance after = Int (pointBalance s userId - a)
       /\ Summary.totalUsed after = VNum (Int (counter_of s userId totalUsed + a))
       /\ pointBalance s userId - a < pointBalance s userId.
Proof.
  intros userId Hq Ha r.
  destruct (ServerSpec.spendPoints_number StringToNumber a body_userId s) as (_ & _ & Hok).
  destruct (Hok Ha) as (Hr & Ht & Hc). fold userId in Hr, Hc. fold r in Hr, Ht, Hc.
  assert (Hused : counter_of r.1 userId totalUsed = counter_of s userId totalUsed + a).
  { rewrite Hc, ServerSpec.inc_total_single. rewrite !decide_True by reflexivity. lia. }
  assert (Hearned : counter_of r.1 userId totalEarned = counter_of s userId totalEarned).
  { rewrite Hc, ServerSpec.inc_total_single. rewrite decide_True by reflexivity.
    rewrite decide_False by discriminate. lia. }
  split; [exact Hr|]. split; [exact Hused|].
  destruct (ServerSpec.summary_spec StringToNumber query_userId s)
    as (s1 & nm1 & Hs1 & _ & _).
  destruct (ServerSpec.summary_spec StringToNumber query_userId r.1)
    as (s2 & nm2 & Hs2 & _ & _).
  rewrite Hq in Hs1, Hs2.
  eexists _, _. rewrite Hs1, Hs2. cbn [snd Summary.balance Summary.totalUsed].
  split; [reflexivity|]. split; [reflexivity|]. split; [reflexivity|].
  cbn [Summary.balance Summary.totalUsed]. split; [|split].
  - unfold pointBalance. rewrite Hused, Hearned. f_equal. lia.
  - now rewrite Hused.
  - lia.
Qed.

Lemma spendPoints_then_summary_witness :
  or_default_user (Some "alice") = default_user (Some "alice")
  /\ 0 < 4 <= pointBalance alice_store "alice"
  /\ (Server.spendPoints StringToNumber_int (VNum (Int 4)) (Some "alice") alice_store).2
     = res_status 200 (Spent "Points spent successfully" (VNum (Int 4)) (Int 6)).
Proof.
  split; [reflexivity|]. split; [vm_compute; split; [reflexivity|discriminate]|].
  apply (spendPoints_then_summary StringToNumber_int alice_store 4 (Some "alice")
           (Some "alice")).
  - reflexivity.
  - vm_compute. split; [reflexivity|discriminate].
Defined.

(** C3: starting from freshly created, zeroed user records, after every
    sequence of requests and one more request, the five counters of every
    user are non-negative and neither balance is negative (so no spend has
    made one negative), and every request other than the administrative
    wipe (task completion with its credit step, [spendPoints], [spendTime],
    the summary, listing and creating tasks) leaves each counter at least
    as large as it was; [getOrCreateUser], which the spends and the summary
    call, returns a user and changes no counter. *)
Theorem ledger_invariant (StringToNumber : string -> num)
    (s0 : Store Server.Task) (reqs : list Server.request) (req : Server.request)
    (userId : string) :
  zeroed s0 ->
  let s := Server.run StringToNumber reqs s0 in
  let s' := (Server.app StringToNumber req s).1 in
  (forall c, 0 <= counter_of s' userId c)
  /\ 0 <= pointBalance s' userId
  /\ 0 <= timeBalance s' userId
  /\ (req <> Server.DeleteCleanup -> forall c, counter_of s userId c <= counter_of s' userId c)
  /\ (exists s'' user,
        Server.getOrCreateUser StringToNumber userId s = (s'', Val user)
        /\ forall u c, counter_of s'' u c = counter_of s u c).
Proof.
  intros Hz s s'.
  assert (Hok : ledger_ok s)
    by (apply ServerSpec.run_ledger_ok, ServerSpec.zeroed_ledger_ok, Hz).
  destruct (ServerSpec.app_ledger_ok StringToNumber req s Hok userId) as (Hn & Hp & Ht).
  repeat split; try assumption.
  - intros Hreq c. now apply ServerSpec.app_counters.
  - destruct (ServerSpec.getOrCreateUser_spec StringToNumber userId s)
      as (s'' & user & Hg & _ & _ & Hc & _).
    now exists s'', user.
Qed.

Lemma ledger_invariant_witness :
  zeroed (Store.empty : Store Server.Task)
  /\ 0 <= pointBalance
            (Server.app StringToNumber_int (Server.PostUse (VNum (Int 4)) (Some "alice"))
               alice_store).1 "alice".
Proof.
  split; [intros u c; reflexivity|].
  apply (ledger_invariant StringToNumber_int Store.empty alice_requests
           (Server.PostUse (VNum (Int 4)) (Some "alice")) "alice").
  intros u c. reflexivity.
Defined.

(** C4: when task completion reaches its credit step (the lookup found a
    task that is not completed), [tasksCompleted] of the user grows by 1,
    [totalEarned] grows by the point reward only when that reward is
    strictly positive, [timeEarned] grows by the time reward only when that
    reward is strictly positive, and the two used counters stay as they
    were; in both variants.  In particular a task with [reward = 0] and
    [timeReward = 5] adds 5 to [timeEarned], nothing to [totalEarned] and 1
    to [tasksCompleted]. *)
Theorem credit_step :
  (forall (s : Store Server.Task) taskId body_userId now task,
      let userId := or_default_user body_userId in
      head (filter (fun t => Server._id t = taskId /\ Server.userId t = userId) (tasks s))
      = Some task ->
      Server.completed task = false ->
      let s' := (Server.completeTask taskId body_userId now s).1 in
      counter_of s' userId tasksCompleted = counter_of s userId tasksCompleted + 1
      /\ counter_of s' userId totalEarned
         = counter_of s userId totalEarned
           + (if Server.reward task >? 0 then Server.reward task else 0)
      /\ counter_of s' userId timeEarned
         = counter_of s userId timeEarned
           + (if Server.timeReward task >? 0 then Server.timeReward task else 0)
      /\ counter_of s' userId totalUsed = counter_of s userId totalUsed
      /\ counter_of s' userId timeUsed = counter_of s userId timeUsed)
  /\ (forall (s : Store Api.Task) taskId body_userId now task,
      let userId := default_user body_userId in
      head (filter (fun t => Api._id t = taskId) (tasks s)) = Some task ->
      Api.completed task = false ->
      let s' := (Api.completeTask taskId body_userId now s).1 in
      counter_of s' userId tasksCompleted = counter_of s userId tasksCompleted + 1
      /\ counter_of s' userId totalEarned
         = counter_of s userId totalEarned
           + (if Api.reward task >? 0 then Api.reward task else 0)
      /\ counter_of s' userId timeEarned
         = counter_of s userId timeEarned
           + (if Api.timeReward task >? 0 then Api.timeReward task else 0)
      /\ counter_of s' userId totalUsed = counter_of s userId totalUsed
      /\ counter_of s' userId timeUsed = counter_of s userId timeUsed).
Proof.
  split; intros s taskId body_userId now task userId Hfind Hc s'; subst s'.
  - rewrite ServerSpec.completeTask_eq. cbn zeta. fold userId. rewrite Hfind, Hc.
    cbn [fst]. rewrite !counter_of_inc, !ServerSpec.inc_total_credited.
    rewrite !decide_True by reflexivity.
    destruct (Z.gtb_spec (Server.reward task) 0), (Z.gtb_spec (Server.timeReward task) 0);
      repeat split; lia.
  - rewrite ApiSpec.api_completeTask_eq. cbn zeta. fold userId. rewrite Hfind, Hc.
    cbn [fst]. rewrite !counter_of_inc, !ServerSpec.inc_total_credited.
    rewrite !decide_True by reflexivity.
    destruct (Z.gtb_spec (Api.reward task) 0), (Z.gtb_spec (Api.timeReward task) 0);
      repeat split; lia.
Qed.

Lemma credit_step_witness :
  (let s' := (Server.completeTask "19af" (Some "alice") "2024-01-02T10:00:00.000Z"
                nap_store).1 in
   counter_of s' "alice" tasksCompleted = counter_of nap_store "alice" tasksCompleted + 1
   /\ counter_of s' "alice" totalEarned = counter_of nap_store "alice" totalEarned + 0
   /\ counter_of s' "alice" timeEarned = counter_of nap_store "alice" timeEarned + 5)
  /\ (let s' := (Api.completeTask "19af" (Some "alice") "2024-01-02T10:00:00.000Z"
                   api_nap_store).1 in
      counter_of s' "alice" tasksCompleted = counter_of api_nap_store "alice" tasksCompleted + 1
      /\ counter_of s' "alice" totalEarned = counter_of api_nap_store "alice" totalEarned + 0
      /\ counter_of s' "alice" timeEarned = counter_of api_nap_store "alice" timeEarned + 5).
Proof.
  split.
  - pose proof (proj1 credit_step nap_store "19af" (Some "alice")
                  "2024-01-02T10:00:00.000Z"
                  {| Server._id := "19af"; Server.userId := "alice";
                     Server.description := VStr "Take a nap"; Server.reward := 0;
                     Server.timeReward := 5; Server.completed := false;
                     Server.createdAt := "2024-01-02T09:00:00.000Z";
                     Server.completedAt := None |} eq_refl eq_refl) as H.
    cbn zeta in H. destruct H as (H1 & H2 & H3 & _). auto.
  - pose proof (proj2 credit_step api_nap_store "19af" (Some "alice")
                  "2024-01-02T10:00:00.000Z"
                  {| Api._id := "19af"; Api.name := VStr "Take a nap"; Api.reward := 0;
                     Api.timeReward := 5; Api.category := VStr "general";
                     Api.priority := VStr "medium"; Api.notes := VStr "";
                     Api.completed := false;
                     Api.createdAt := "2024-01-02T09:00:00.000Z";
                     Api.completedAt := None; Api.updatedAt := None |}
                  eq_refl eq_refl) as H.
    cbn zeta in H. destruct H as (H1 & H2 & H3 & _). auto.
Defined.

(** C10: task completion validates before it writes: whenever it answers
    404 "Task not found" or 400 "Task already completed", the store after
    the call is the store before it, so the task documents and the counters
    of every user are unchanged; in both variants.  These two are the only
    answers other than 200. *)
Theorem completeTask_failure_writes_nothing :
  (forall (s : Store Server.Task) taskId body_userId now,
      let r := Server.completeTask taskId body_userId now s in
      (r.2 = res_status 404 (Error "Task not found")
       \/ r.2 = res_status 400 (Error "Task already completed") -> r.1 = s)
      /\ (status r.2 <> 200%nat ->
          r.2 = res_status 404 (Error "Task not found")
          \/ r.2 = res_status 400 (Error "Task already completed")))
  /\ (forall (s : Store Api.Task) taskId body_userId now,
      let r := Api.completeTask taskId body_userId now s in
      (r.2 = res_status 404 (Error "Task not found")
       \/ r.2 = res_status 400 (Error "Task already completed") -> r.1 = s)
      /\ (status r.2 <> 200%nat ->
          r.2 = res_status 404 (Error "Task not found")
          \/ r.2 = res_status 400 (Error "Task already completed"))).
Proof.
  split; intros s taskId body_userId now r; subst r.
  - rewrite ServerSpec.completeTask_eq. cbn zeta.
    destruct (head (filter _ (tasks s))) as [task|]; [|split; auto].
    destruct (Server.completed task); [split; auto|].
    cbn [fst snd status res_status]. split; [intros [H|H]; discriminate|congruence].
  - rewrite ApiSpec.api_completeTask_eq. cbn zeta.
    destruct (head (filter _ (tasks s))) as [task|]; [|split; auto].
    destruct (Api.completed task); [split; auto|].
    cbn [fst snd status res_status]. split; [intros [H|H]; discriminate|congruence].
Qed.

Lemma completeTask_failure_writes_nothing_witness :
  (Server.completeTask "7b0c" (Some "alice") "2024-01-03T08:00:00.000Z" alice_store).2
  = res_status 400 (Error "Task already completed")
  /\ (Server.completeTask "7b0c" (Some "alice") "2024-01-03T08:00:00.000Z" alice_store).1
     = alice_store
  /\ (Api.completeTask "0000" None "2024-01-03T08:00:00.000Z" api_nap_store).2
     = res_status 404 (Error "Task not found")
  /\ (Api.completeTask "0000" None "2024-01-03T08:00:00.000Z" api_nap_store).1
     = api_nap_store.
Proof.
  split; [reflexivity|]. split.
  - apply (proj1 (proj1 completeTask_failure_writes_nothing alice_store "7b0c"
                    (Some "alice") "2024-01-03T08:00:00.000Z")).
    right. reflexivity.
  - split; [reflexivity|].
    apply (proj1 (proj2 completeTask_failure_writes_nothing api_nap_store "0000"
                    None "2024-01-03T08:00:00.000Z")).
    left. reflexivity.
Defined.

(** C7: for every [userId] of the query, the listing answers 200 with
    exactly the stored tasks whose [userId] is the resolved one
    ([userId || 'default-user'], which is [userId] itself when it is not
    empty), in insertion order: a task of another user is never included,
    every task of the user is, and a user without tasks gets the empty
    sequence, not an error; the store is unchanged.  The second variant,
    whose tasks carry no [userId], answers 200 with the whole collection. *)
Theorem listTasks_of_user (s : Store Server.Task) (sa : Store Api.Task)
    (query_userId : option string) :
  let userId := or_default_user query_userId in
  (exists taskList,
      Server.listTasks query_userId s = (s, res_status 200 (Tasks taskList))
      /\ (forall t, t ∈ taskList <-> t ∈ tasks s /\ Server.userId t = userId)
      /\ taskList `sublist_of` tasks s
      /\ ((forall t, t ∈ tasks s -> Server.userId t <> userId) -> taskList = []))
  /\ (forall u, u <> "" -> or_default_user (Some u) = u)
  /\ Api.listTasks sa = (sa, res_status 200 (Tasks (tasks sa))).
Proof.
  intros userId. split; [|split].
  - exists (filter (fun t => Server.userId t = userId) (tasks s)).
    split; [apply ServerSpec.listTasks_eq|]. split; [|split].
    + intros t. rewrite list_elem_of_filter. tauto.
    + apply sublist_filter.
    + intros Hnone. destruct (filter _ (tasks s)) as [|t l] eqn:E; [reflexivity|].
      assert (Ht : t ∈ filter (fun t => Server.userId t = userId) (tasks s))
        by (rewrite E; left).
      apply list_elem_of_filter in Ht as [Hu Ht]. now destruct (Hnone t Ht).
  - intros u Hu. unfold or_default_user. now rewrite decide_False.
  - apply ApiSpec.api_listTasks_eq.
Qed.

Lemma listTasks_of_user_witness :
  Server.listTasks (Some "bob") alice_store = (alice_store, res_status 200 (Tasks [])).
Proof.
  destruct (listTasks_of_user alice_store api_nap_store (Some "bob"))
    as [(taskList & Hl & _ & _ & Hnone) _].
  rewrite Hl. rewrite Hnone; [reflexivity|].
  intros t Ht. vm_compute in Ht. apply list_elem_of_singleton in Ht. subst t. discriminate.
Defined.

(** C1 (as amended): after every sequence of requests, for every stored
    task [t] with [completed = false], the first [completeTask] on its id
    for the user who owns it answers 200 with the completed task, and the
    point and time balances of that user afterwards, as the summary reports
    them, are the balances before plus each reward of [t] that is strictly
    positive (a reward that is not positive adds nothing); a second call on
    the same id answers 400 "Task already completed" and changes nothing. *)
Theorem completeTask_once (StringToNumber : string -> num)
    (reqs : list Server.request) (t : Server.Task) (body_userId : option string)
    (now now' : string) :
  let s := Server.run StringToNumber reqs Store.empty in
  let userId := or_default_user body_userId in
  t ∈ tasks s ->
  Server.completed t = false ->
  Server.userId t = userId ->
  let r := Server.completeTask (Server._id t) body_userId now s in
  r.2 = res_status 200 (TaskJson (Some (Server.set_completed now t)))
  /\ pointBalance r.1 userId = pointBalance s userId + Z.max 0 (Server.reward t)
  /\ timeBalance r.1 userId = timeBalance s userId + Z.max 0 (Server.timeReward t)
  /\ (exists before after,
        (Server.summary StringToNumber body_userId s).2
        = res_status 200 (SummaryJson before)
        /\ (Server.summary StringToNumber body_userId r.1).2
           = res_status 200 (SummaryJson after)
        /\ Summary.balance before = Int (pointBalance s userId)
        /\ Summary.timeBalance before = Int (timeBalance s userId)
        /\ Summary.balance after
           = Int (pointBalance s userId + Z.max 0 (Server.reward t))
        /\ Summary.timeBalance after
           = Int (timeBalance s userId + Z.max 0 (Server.timeReward t)))
  /\ Server.completeTask (Server._id t) body_userId now' r.1
     = (r.1, res_status 400 (Error "Task already completed")).
Proof.
  intros s userId Hin Hc Hu r.
  assert (Hk : keys_unique s)
    by apply ServerSpec.run_keys, ServerSpec.empty_keys.
  assert (Hfind : head (filter (fun t' => Server._id t' = Server._id t
                                          /\ Server.userId t' = userId) (tasks s)) = Some t).
  { apply head_filter_unique; [exact Hk|exact Hin|now split|now intros t' [? _]]. }
  assert (Hr : r = ({| users := <[userId := foldl inc_field
                                   (upserted userId (users s !! userId))
                                   (credited (Server.reward t) (Server.timeReward t))]>
                                  (users s);
                       tasks := update_first (fun t' => Server._id t' = Server._id t)
                                  (Server.set_completed now) (tasks s) |},
                    res_status 200 (TaskJson (Some (Server.set_completed now t))))).
  { subst r. rewrite ServerSpec.completeTask_eq. cbn zeta. fold userId.
    rewrite Hfind, Hc. do 3 f_equal.
    apply head_filter_unique.
    - unfold keys_unique in Hk. now rewrite update_first_ids.
    - apply elem_of_update_first; [exact Hk|exact Hin|reflexivity|auto].
    - reflexivity.
    - auto. }
  assert (Hp : pointBalance r.1 userId = pointBalance s userId + Z.max 0 (Server.reward t)).
  { rewrite Hr. cbn [fst]. unfold pointBalance.
    rewrite !counter_of_inc, !ServerSpec.inc_total_credited, !decide_True by reflexivity.
    lia. }
  assert (Ht : timeBalance r.1 userId
               = timeBalance s userId + Z.max 0 (Server.timeReward t)).
  { rewrite Hr. cbn [fst]. unfold timeBalance.
    rewrite !counter_of_inc, !ServerSpec.inc_total_credited, !decide_True by reflexivity.
    lia. }
  split; [now rewrite Hr|]. split; [exact Hp|]. split; [exact Ht|]. split.
  { destruct (ServerSpec.summary_spec StringToNumber body_userId s)
      as (s1 & nm1 & Hs1 & _ & _).
    destruct (ServerSpec.summary_spec StringToNumber body_userId r.1)
      as (s2 & nm2 & Hs2 & _ & _).
    fold userId in Hs1, Hs2. rewrite Hp, Ht in Hs2.
    eexists _, _. rewrite Hs1, Hs2. repeat split. }
  rewrite Hr. cbn [fst].
  rewrite ServerSpec.completeTask_eq. cbn zeta. fold userId. cbn [tasks].
  assert (Hfind' : head (filter (fun t' => Server._id t' = Server._id t
                                           /\ Server.userId t' = userId)
                           (update_first (fun t' => Server._id t' = Server._id t)
                              (Server.set_completed now) (tasks s)))
                   = Some (Server.set_completed now t)).
  { apply head_filter_unique.
    - unfold keys_unique in Hk. now rewrite update_first_ids.
    - apply elem_of_update_first; [exact Hk|exact Hin|reflexivity|auto].
    - now split.
    - now intros t' [? _]. }
  rewrite Hfind'. reflexivity.
Qed.

Lemma completeTask_once_witness :
  let s := Server.run StringToNumber_int
             [ Server.PostTask (VStr "Read a book") (VNum (Int 10)) (VNum (Int 15))
                 (Some "alice") "7b0c" "2024-01-01T10:00:00.000Z" ] Store.empty in
  let r := Server.completeTask "7b0c" (Some "alice") "2024-01-01T11:00:00.000Z" s in
  pointBalance r.1 "alice" = pointBalance s "alice" + 10
  /\ timeBalance r.1 "alice" = timeBalance s "alice" + 15
  /\ (Server.completeTask "7b0c" (Some "alice") "2024-01-01T12:00:00.000Z" r.1).2
     = res_status 400 (Error "Task already completed").
Proof.
  intros s r.
  destruct (completeTask_once StringToNumber_int
              [ Server.PostTask (VStr "Read a book") (VNum (Int 10)) (VNum (Int 15))
                  (Some "alice") "7b0c" "2024-01-01T10:00:00.000Z" ]
              {| Server._id := "7b0c"; Server.userId := "alice";
                 Server.description := VStr "Read a book"; Server.reward := 10;
                 Server.timeReward := 15; Server.completed := false;
                 Server.createdAt := "2024-01-01T10:00:00.000Z";
                 Server.completedAt := None |}
              (Some "alice") "2024-01-01T11:00:00.000Z" "2024-01-01T12:00:00.000Z")
    as (_ & Hp & Ht & _ & Hagain).
  - vm_compute. left.
  - reflexivity.
  - reflexivity.
  - split; [exact Hp|]. split; [exact Ht|]. cbn [Server._id] in Hagain.
    fold s in Hagain. fold r in Hagain. now rewrite Hagain.
Defined.

(** C1 (the statement as written fails): a stored task that is not
    completed cannot be completed for a user other than its owner, the
    answer is 404 "Task not found"; and completing a task whose stored point
    reward is negative leaves the point balance of its owner as it was
    instead of adding the reward. *)
Lemma completeTask_not_for_every_user_or_reward :
  (let s := Server.run StringToNumber_int
              [ Server.PostTask (VStr "Read a book") (VNum (Int 10)) (VNum (Int 15))
                  (Some "alice") "7b0c" "2024-01-01T10:00:00.000Z" ] Store.empty in
   tasks s = [ {| Server._id := "7b0c"; Server.userId := "alice";
                  Server.description := VStr "Read a book"; Server.reward := 10;
                  Server.timeReward := 15; Server.completed := false;
                  Server.createdAt := "2024-01-01T10:00:00.000Z";
                  Server.completedAt := None |} ]
   /\ Server.completeTask "7b0c" (Some "bob") "2024-01-01T11:00:00.000Z" s
      = (s, res_status 404 (Error "Task not found")))
  /\ (let s := Server.run StringToNumber_int
                 [ Server.PostTask (VStr "Tidy up") (VStr "-5") (VStr "10")
                     (Some "alice") "c2d1" "2024-01-01T10:00:00.000Z" ] Store.empty in
      let r := Server.completeTask "c2d1" (Some "alice") "2024-01-01T11:00:00.000Z" s in
      tasks s = [ {| Server._id := "c2d1"; Server.userId := "alice";
                     Server.description := VStr "Tidy up"; Server.reward := -5;
                     Server.timeReward := 10; Server.completed := false;
                     Server.createdAt := "2024-01-01T10:00:00.000Z";
                     Server.completedAt := None |} ]
      /\ status r.2 = 200%nat
      /\ pointBalance s "alice" = 0
      /\ pointBalance r.1 "alice" = 0
      /\ pointBalance r.1 "alice" <> pointBalance s "alice" + -5).
Proof.
  split.
  - split; reflexivity.
  - cbv zeta. split; [reflexivity|]. split; [reflexivity|].
    split; [reflexivity|]. split; [reflexivity|]. vm_compute. discriminate.
Qed.

(** C8: for all valid creation inputs (a non-empty description and, in the
    server variant, one strictly positive reward), after any sequence of
    requests, when [uuidv4()] returns an identifier that it has not
    returned before, [createTask] answers 201 with a task whose [completed]
    field is [false] and whose id differs from the id of every task created
    before and of every stored task; in both variants.  Independently of
    what [uuidv4()] returns, the tasks created by a sequence of requests
    without the administrative wipe have pairwise distinct ids, because
    [insertOne] refuses a key that is stored. *)
Theorem createTask_fresh_id (StringToNumber : string -> num) :
  (forall reqs description reward timeReward body_userId uuid now,
      let s := Server.run StringToNumber reqs Store.empty in
      truthy description = true ->
      0 < or_zero (parseInt reward) \/ 0 < or_zero (parseInt timeReward) ->
      uuid ∉ Server.uuids reqs ->
      exists t,
        (Server.createTask description reward timeReward body_userId uuid now s).2
        = res_status 201 (TaskJson (Some t))
        /\ Server.completed t = false
        /\ (forall t', t' ∈ Server.created StringToNumber reqs Store.empty ->
                       Server._id t' <> Server._id t)
        /\ (forall t', t' ∈ tasks s -> Server._id t' <> Server._id t))
  /\ (forall reqs name reward timeReward category priority notes uuid now,
      let s := Api.run StringToNumber reqs Store.empty in
      truthy name = true ->
      uuid ∉ Api.uuids reqs ->
      exists t,
        (Api.createTask StringToNumber name reward timeReward category priority notes
           uuid now s).2
        = res_status 201 (TaskJson (Some t))
        /\ Api.completed t = false
        /\ (forall t', t' ∈ Api.created StringToNumber reqs Store.empty ->
                       Api._id t' <> Api._id t)
        /\ (forall t', t' ∈ tasks s -> Api._id t' <> Api._id t))
  /\ (forall reqs,
      Server.DeleteCleanup ∉ reqs ->
      NoDup (Server._id <$> Server.created StringToNumber reqs Store.empty)
      /\ forall t, t ∈ Server.created StringToNumber reqs Store.empty ->
                   Server.completed t = false).
Proof.
  split; [|split].
  - intros reqs d r tr u uuid now s Hd Hr Hu.
    assert (Hfresh : uuid ∉ (doc_id <$> tasks s)).
    { intros Hx. apply (ServerSpec.run_ids_issued StringToNumber) in Hx as [Hx|Hx].
      - inversion Hx.
      - now apply Hu. }
    rewrite ServerSpec.createTask_eq. cbn zeta. rewrite Hd. cbn [negb].
    replace ((or_zero (parseInt r) <=? 0) && (or_zero (parseInt tr) <=? 0)) with false
      by (symmetry; apply andb_false_iff; rewrite !Z.leb_gt; tauto).
    rewrite decide_False by exact Hfresh. cbn [snd].
    eexists. split; [reflexivity|]. cbn [Server.completed Server._id].
    split; [reflexivity|]. split.
    + intros t' Ht' Heq. apply Hu. rewrite <- Heq.
      eapply elem_of_sublist; [|apply (ServerSpec.created_ids_issued StringToNumber)].
      apply list_elem_of_fmap_2, Ht'.
    + intros t' Ht' Heq. apply Hfresh. rewrite <- Heq.
      now apply (list_elem_of_fmap_2 doc_id).
  - intros reqs nm r tr cat pr nt uuid now s Hn Hu.
    assert (Hfresh : uuid ∉ (doc_id <$> tasks s)).
    { intros Hx. apply (ApiSpec.api_run_ids_issued StringToNumber) in Hx as [Hx|Hx].
      - inversion Hx.
      - now apply Hu. }
    rewrite ApiSpec.api_createTask_eq. cbn zeta. rewrite Hn. cbn [negb].
    rewrite decide_False by exact Hfresh. cbn [snd].
    eexists. split; [reflexivity|]. cbn [Api.completed Api._id].
    split; [reflexivity|]. split.
    + intros t' Ht' Heq. apply Hu. rewrite <- Heq.
      eapply elem_of_sublist; [|apply (ApiSpec.api_created_ids_issued StringToNumber)].
      apply list_elem_of_fmap_2, Ht'.
    + intros t' Ht' Heq. apply Hfresh. rewrite <- Heq.
      now apply (list_elem_of_fmap_2 doc_id).
  - intros reqs Hreqs.
    destruct (ServerSpec.created_distinct StringToNumber reqs Store.empty Hreqs)
      as (Hnd & Hall & _).
    split; [exact Hnd|]. intros t Ht. now destruct (Hall t Ht).
Qed.

Lemma createTask_fresh_id_witness :
  truthy (VStr "Take a nap") = true
  /\ (0 < or_zero (parseInt (VNum (Int 0))) \/ 0 < or_zero (parseInt (VNum (Int 5))))
  /\ ("19af" ∉ Server.uuids alice_requests)
  /\ exists t,
       (Server.createTask (VStr "Take a nap") (VNum (Int 0)) (VNum (Int 5)) (Some "alice")
          "19af" "2024-01-02T09:00:00.000Z" alice_store).2
       = res_status 201 (TaskJson (Some t))
       /\ Server.completed t = false
       /\ (forall t', t' ∈ Server.created StringToNumber_int alice_requests Store.empty ->
                      Server._id t' <> Server._id t)
       /\ (forall t', t' ∈ tasks alice_store -> Server._id t' <> Server._id t).
Proof.
  assert (H1 : truthy (VStr "Take a nap") = true) by reflexivity.
  assert (H2 : 0 < or_zero (parseInt (VNum (Int 0))) \/ 0 < or_zero (parseInt (VNum (Int 5))))
    by (right; reflexivity).
  assert (H3 : "19af" ∉ Server.uuids alice_requests).
  { vm_compute. intros H. apply list_elem_of_singleton in H. discriminate. }
  split; [exact H1|]. split; [exact H2|]. split; [exact H3|].
  exact (proj1 (createTask_fresh_id StringToNumber_int) alice_requests
           (VStr "Take a nap") (VNum (Int 0)) (VNum (Int 5)) (Some "alice")
           "19af" "2024-01-02T09:00:00.000Z" H1 H2 H3).
Defined.





(** In the server variant, starting from zeroed user records and after
    every sequence of requests, a spend of more points than the balance
    answers 400 "Insufficient balance" with the balance and the requested
    amount, and leaves every counter, hence the balance, as it was. *)
Lemma spendPoints_insufficient_unchanged (StringToNumber : string -> num)
    (s0 : Store Server.Task) (reqs : list Server.request) (a : Z)
    (body_userId : option string) :
  zeroed s0 ->
  let s := Server.run StringToNumber reqs s0 in
  let userId := default_user body_userId in
  pointBalance s userId < a ->
  let r := Server.spendPoints StringToNumber (VNum (Int a)) body_userId s in
  r.2 = res_status 400
          (Insufficient "Insufficient balance" (Int (pointBalance s userId)) (VNum (Int a)))
  /\ (forall u c, counter_of r.1 u c = counter_of s u c)
  /\ pointBalance r.1 userId = pointBalance s userId.
Proof.
  intros Hz s userId Ha r.
  assert (Hok : ledger_ok s)
    by (apply ServerSpec.run_ledger_ok, ServerSpec.zeroed_ledger_ok, Hz).
  destruct (Hok userId) as (_ & Hp & _).
  destruct (ServerSpec.spendPoints_number StringToNumber a body_userId s) as (_ & Hins & _).
  destruct Hins as (Hr & _ & Hc); [lia|exact Ha|].
  split; [exact Hr|]. split; [exact Hc|].
  unfold pointBalance. now rewrite !Hc.
Qed.

(** C2 (the second variant breaks it): a user whose record was created by
    the upsert of the credit step has no [totalUsed] field, and the second
    variant reads the record as it is, so the balance it computes is [NaN],
    [NaN < amount] is false and the spend goes through.  With 10 points
    earned and none used, spending 15 answers 200, stores [totalUsed = 15]
    and leaves a balance of -5. *)
Theorem api_spendPoints_beyond_balance :
  let s := Api.run StringToNumber_int
             [ Api.PostTask (VStr "Read a book") (VNum (Int 10)) (VNum (Int 15))
                 VUndefined VUndefined VUndefined "7b0c" "2024-01-01T10:00:00.000Z";
               Api.PostComplete "7b0c" (Some "alice") "2024-01-01T11:00:00.000Z" ]
             Store.empty in
  let r := Api.spendPoints StringToNumber_int (VNum (Int 15)) (Some "alice")
             "2024-01-01T12:00:00.000Z" s in
  pointBalance s "alice" = 10
  /\ counter_of s "alice" totalUsed = 0
  /\ r.2 = res_status 200 (Spent "Points spent successfully" (VNum (Int 15)) NaN)
  /\ counter_of r.1 "alice" totalUsed = 15
  /\ pointBalance r.1 "alice" = -5
  /\ (Server.spendPoints StringToNumber_int (VNum (Int 15)) (Some "alice") alice_store).2
     = res_status 400 (Insufficient "Insufficient balance" (Int 10) (VNum (Int 15))).
Proof. cbv zeta. repeat split; reflexivity. Qed.

(** * Further properties of the handlers *)

(** ** Spending, in [src/server/index.js] *)

(** X1: for every store and every number of minutes with
    0 < minutes <= timeBalance, [spendTime] answers 200 with the activity
    of the request ("Free time" when it has none), [spent = minutes] and
    [newTimeBalance = timeBalance - minutes]; it adds exactly [minutes] to
    [timeUsed], leaves the point balance as it was, and the summary
    requested next for the same user reports the new time balance. *)
Theorem spendTime_then_summary (StringToNumber : string -> num)
    (s : Store Server.Task) (a : Z) (activity : value)
    (body_userId query_userId : option string) :
  let userId := default_user body_userId in
  or_default_user query_userId = userId ->
  0 < a <= timeBalance s userId ->
  let r := Server.spendTime StringToNumber (VNum (Int a)) activity body_userId s in
  r.2 = res_status 200
          (TimeSpent (if decide (activity = VUndefined) then VStr "Free time" else activity)
             (VNum (Int a)) (Int (timeBalance s userId - a)))
  /\ counter_of r.1 userId timeUsed = counter_of s userId timeUsed + a
  /\ pointBalance r.1 userId = pointBalance s userId
  /\ tasks r.1 = tasks s
  /\ exists after,
       (Server.summary StringToNumber query_userId r.1).2
       = res_status 200 (SummaryJson after)
       /\ Summary.timeBalance after = Int (timeBalance s userId - a)
       /\ Summary.balance after = Int (pointBalance s userId).
Proof.
  intros userId Hq Ha r.
  assert (Hv : negb (truthy (VNum (Int a)))
               || le StringToNumber (VNum (Int a)) (VNum (Int 0)) = false)
    by (apply (ServerSpec.valid_amount StringToNumber _ a eq_refl); lia).
  destruct (ServerSpec.getOrCreateUser_spec StringToNumber userId s)
    as (s1 & user & Hg & Ht & Hu & Hc & Hf).
  assert (Hr : exists s2, r = (s2, res_status 200
                 (TimeSpent (if decide (activity = VUndefined) then VStr "Free time"
                             else activity)
                    (VNum (Int a)) (Int (timeBalance s userId - a))))
               /\ tasks s2 = tasks s
               /\ forall u c, counter_of s2 u c
                    = counter_of s u c
                      + (if decide (userId = u) then inc_total c [(timeUsed, a)] else 0)).
  { subst r. unfold Server.spendTime, handle. fold userId. rewrite Hv.
    rewrite (bind_Val _ _ _ _ _ Hg). rewrite !Hf.
    change (sub StringToNumber (VNum (Int (counter_of s userId timeEarned)))
              (VNum (Int (counter_of s userId timeUsed))))
      with (Int (timeBalance s userId)).
    unfold lt, num_lt, ToNumber.
    destruct (Z.ltb_spec (timeBalance s userId) a) as [Hlt|Hge]; [lia|].
    erewrite bind_Val
      by (apply (users_updateOne_inc_numeric _ _ [(timeUsed, a)]); [reflexivity|now right]).
    eexists. split; [reflexivity|]. split; [exact Ht|].
    intros u c. rewrite counter_of_inc, Hc. reflexivity. }
  destruct Hr as (s2 & Hr & Ht2 & Hc2). rewrite Hr. cbn [fst snd].
  assert (Hused : counter_of s2 userId timeUsed = counter_of s userId timeUsed + a).
  { rewrite Hc2, ServerSpec.inc_total_single, !decide_True by reflexivity. lia. }
  assert (Hother : forall c, c <> timeUsed -> counter_of s2 userId c = counter_of s userId c).
  { intros c Hne. rewrite Hc2, ServerSpec.inc_total_single, decide_True by reflexivity.
    rewrite decide_False by congruence. lia. }
  assert (Hp : pointBalance s2 userId = pointBalance s userId).
  { unfold pointBalance. now rewrite !Hother by discriminate. }
  split; [reflexivity|]. split; [exact Hused|]. split; [exact Hp|]. split; [exact Ht2|].
  destruct (ServerSpec.summary_spec StringToNumber query_userId s2)
    as (s3 & nm & Hs & _ & _).
  rewrite Hq in Hs. eexists. rewrite Hs. split; [reflexivity|].
  cbn [Summary.timeBalance Summary.balance]. split; [|now rewrite Hp].
  unfold timeBalance. rewrite Hused, Hother by discriminate. f_equal. lia.
Qed.

Lemma spendTime_then_summary_witness :
  or_default_user (Some "alice") = default_user (Some "alice")
  /\ 0 < 5 <= timeBalance alice_store "alice"
  /\ (Server.spendTime StringToNumber_int (VNum (Int 5)) VUndefined (Some "alice")
        alice_store).2
     = res_status 200 (TimeSpent (VStr "Free time") (VNum (Int 5)) (Int 10)).
Proof.
  split; [reflexivity|]. split; [vm_compute; split; [reflexivity|discriminate]|].
  apply (spendTime_then_summary StringToNumber_int alice_store 5 VUndefined (Some "alice")
           (Some "alice")).
  - reflexivity.
  - vm_compute. split; [reflexivity|discriminate].
Defined.

(** X2: starting from zeroed user records and after every sequence of
    requests, [spendTime] with more minutes than the time balance answers
    400 "Insufficient time balance" with the balance and the requested
    minutes, and leaves every counter and every task as it was. *)
Theorem spendTime_insufficient_unchanged (StringToNumber : string -> num)
    (s0 : Store Server.Task) (reqs : list Server.request) (a : Z) (activity : value)
    (body_userId : option string) :
  zeroed s0 ->
  let s := Server.run StringToNumber reqs s0 in
  let userId := default_user body_userId in
  timeBalance s userId < a ->
  let r := Server.spendTime StringToNumber (VNum (Int a)) activity body_userId s in
  r.2 = res_status 400
          (InsufficientTime "Insufficient time balance" (Int (timeBalance s userId))
             (VNum (Int a)))
  /\ (forall u c, counter_of r.1 u c = counter_of s u c)
  /\ tasks r.1 = tasks s.
Proof.
  intros Hz s userId Ha r.
  assert (Hok : ledger_ok s)
    by (apply ServerSpec.run_ledger_ok, ServerSpec.zeroed_ledger_ok, Hz).
  destruct (Hok userId) as (_ & _ & Hp).
  destruct (ServerSpec.spendTime_number StringToNumber a activity body_userId s)
    as (_ & Hins & _).
  destruct Hins as (Hr & Ht & Hc); [lia|exact Ha|].
  split; [exact Hr|]. split; [exact Hc|exact Ht].
Qed.

Lemma spendTime_insufficient_unchanged_witness :
  zeroed (Store.empty : Store Server.Task)
  /\ timeBalance alice_store "alice" < 20
  /\ (Server.spendTime StringToNumber_int (VNum (Int 20)) (VStr "Gaming") (Some "alice")
        alice_store).2
     = res_status 400 (InsufficientTime "Insufficient time balance" (Int 15) (VNum (Int 20))).
Proof.
  assert (Hz : zeroed (Store.empty : Store Server.Task)) by (intros u c; reflexivity).
  assert (Hlt : timeBalance alice_store "alice" < 20) by reflexivity.
  split; [exact Hz|]. split; [exact Hlt|].
  apply (spendTime_insufficient_unchanged StringToNumber_int Store.empty alice_requests 20
           (VStr "Gaming") (Some "alice") Hz Hlt).
Defined.

(** X3: an amount that is not a number (a string such as "10", a boolean,
    [null], a missing field) never spends anything: [spendPoints] and
    [spendTime] answer 400 or, when the value passes the two checks and the
    store refuses it as a [$inc] operand, 500, and no counter and no task
    changes. *)
Theorem spend_non_numeric_spends_nothing (StringToNumber : string -> num)
    (s : Store Server.Task) (amount activity : value) (body_userId : option string) :
  (forall a, amount <> VNum (Int a)) ->
  let r := Server.spendPoints StringToNumber amount body_userId s in
  let r' := Server.spendTime StringToNumber amount activity body_userId s in
  (status r.2 = 400%nat \/ status r.2 = 500%nat)
  /\ (forall u c, counter_of r.1 u c = counter_of s u c)
  /\ tasks r.1 = tasks s
  /\ (status r'.2 = 400%nat \/ status r'.2 = 500%nat)
  /\ (forall u c, counter_of r'.1 u c = counter_of s u c)
  /\ tasks r'.1 = tasks s.
Proof.
  intros Hn r r'.
  destruct (ServerSpec.spendPoints_cases StringToNumber amount body_userId s)
    as [Ht [[Hs Hc]|(a & Ha & _)]]; [|now destruct (Hn a)].
  destruct (ServerSpec.spendTime_cases StringToNumber amount activity body_userId s)
    as [Ht' [[Hs' Hc']|(a & Ha & _)]]; [|now destruct (Hn a)].
  repeat split; assumption.
Qed.

Lemma spend_non_numeric_spends_nothing_witness :
  (forall a, VStr "10" <> VNum (Int a))
  /\ status (Server.spendPoints StringToNumber_int (VStr "10") (Some "alice")
               alice_store).2 = 500%nat
  /\ pointBalance
       (Server.spendPoints StringToNumber_int (VStr "10") (Some "alice") alice_store).1
       "alice" = 10.
Proof.
  assert (Hn : forall a, VStr "10" <> VNum (Int a)) by (intros a; discriminate).
  split; [exact Hn|]. split; [reflexivity|].
  destruct (spend_non_numeric_spends_nothing StringToNumber_int alice_store (VStr "10")
              VUndefined (Some "alice") Hn) as (_ & Hc & _).
  unfold pointBalance. rewrite !Hc. reflexivity.
Defined.

(** X4: a spend writes one counter of one user: [spendPoints] changes at
    most [totalUsed] of the user it resolves, and [spendTime] at most
    [timeUsed]; the earned counters, [tasksCompleted], the counters of the
    other currency, the records of the other users and the tasks stay as
    they were, whatever the amount is. *)
Theorem spend_writes_one_counter (StringToNumber : string -> num)
    (s : Store Server.Task) (amount minutes activity : value)
    (body_userId : option string) (u : string) (c : counter) :
  let userId := default_user body_userId in
  (u <> userId \/ c <> totalUsed ->
   counter_of (Server.spendPoints StringToNumber amount body_userId s).1 u c
   = counter_of s u c)
  /\ (u <> userId \/ c <> timeUsed ->
      counter_of (Server.spendTime StringToNumber minutes activity body_userId s).1 u c
      = counter_of s u c)
  /\ tasks (Server.spendPoints StringToNumber amount body_userId s).1 = tasks s
  /\ tasks (Server.spendTime StringToNumber minutes activity body_userId s).1 = tasks s.
Proof.
  intros userId. subst userId.
  destruct (ServerSpec.spendPoints_cases StringToNumber amount body_userId s)
    as [Ht [[_ Hc]|(a & _ & _ & _ & Hc)]];
  destruct (ServerSpec.spendTime_cases StringToNumber minutes activity body_userId s)
    as [Ht' [[_ Hc']|(a' & _ & _ & _ & Hc')]];
  (split; [|split; [|split; assumption]]);
  intros Hne; rewrite ?Hc, ?Hc', ?ServerSpec.inc_total_single;
  repeat case_decide; subst; try reflexivity; try lia; destruct Hne; congruence.
Qed.

Lemma spend_writes_one_counter_witness :
  counter_of (Server.spendPoints StringToNumber_int (VNum (Int 4)) (Some "alice")
                alice_store).1 "alice" timeUsed
  = counter_of alice_store "alice" timeUsed.
Proof.
  apply (proj1 (spend_writes_one_counter StringToNumber_int alice_store (VNum (Int 4))
                  (VNum (Int 4)) VUndefined (Some "alice") "alice" timeUsed)).
  right. discriminate.
Defined.

(** ** Users, in [src/server/index.js] *)

(** X5: [getOrCreateUser] returns a user whose five counters are all
    numbers, and calling it again returns the same user and writes nothing.
    When the record exists the store is left as it is: the normalised
    counters are not written back.  When it does not, the call inserts a
    record named "Default User" whose five counters are 0 and touches no
    other record and no task. *)
Theorem getOrCreateUser_idempotent (StringToNumber : string -> num)
    (s : Store Server.Task) (userId : string) :
  exists s1 user,
    Server.getOrCreateUser StringToNumber userId s = (s1, Val user)
    /\ Server.getOrCreateUser StringToNumber userId s1 = (s1, Val user)
    /\ (forall c, exists z, field user c = VNum (Int z))
    /\ (is_Some (users s !! userId) -> s1 = s)
    /\ (users s !! userId = None ->
        exists d, users s1 = <[userId := d]> (users s)
                  /\ tasks s1 = tasks s
                  /\ Store._id d = userId
                  /\ Store.name d = VStr "Default User"
                  /\ forall c, counters d !! c = Some 0 /\ field user c = VNum (Int 0)).
Proof.
  destruct (ServerSpec.getOrCreateUser_spec StringToNumber userId s)
    as (s1 & user & Hg & _ & _ & _ & Hf).
  exists s1, user. split; [exact Hg|].
  split; [|split; [intros c; rewrite Hf; eauto|]].
  - revert Hg. unfold Server.getOrCreateUser. ServerSpec.run_monad.
    destruct (users s !! userId) as [d|] eqn:E; cbn [Store._id]; rewrite ?E.
    + intros [= <- <-]. now rewrite E.
    + intros [= <- <-]. cbn [users]. now rewrite lookup_insert_eq.
  - revert Hg. unfold Server.getOrCreateUser. ServerSpec.run_monad.
    destruct (users s !! userId) as [d|] eqn:E; cbn [Store._id]; rewrite ?E.
    + intros [= <- <-]. split; [reflexivity|discriminate].
    + intros [= <- <-]. split; [intros [? ?]; discriminate|]. intros _.
      eexists. split; [reflexivity|]. repeat split; now destruct c.
Qed.

Lemma getOrCreateUser_new (StringToNumber : string -> num) (s : Store Server.Task)
    (userId : string) :
  users s !! userId = None ->
  exists s1 user d,
    Server.getOrCreateUser StringToNumber userId s = (s1, Val user)
    /\ users s1 = <[userId := d]> (users s)
    /\ tasks s1 = tasks s
    /\ forall c, counters d !! c = Some 0 /\ field user c = VNum (Int 0).
Proof.
  intros E. unfold Server.getOrCreateUser. ServerSpec.run_monad.
  cbn [Store._id]. rewrite !E.
  eexists _, _, _. split; [reflexivity|]. repeat split; now destruct c.
Qed.

(** X6: a spend for a user who has no record yet is refused with 400
    "Insufficient balance" and a balance of 0, for every positive amount,
    and the refused request still creates the zeroed record of that user;
    the tasks and the counters of every user, read with a missing counter
    as 0, are as before. *)
Theorem spendPoints_unknown_user (StringToNumber : string -> num)
    (s : Store Server.Task) (a : Z) (body_userId : option string) :
  let userId := default_user body_userId in
  users s !! userId = None ->
  0 < a ->
  let r := Server.spendPoints StringToNumber (VNum (Int a)) body_userId s in
  r.2 = res_status 400 (Insufficient "Insufficient balance" (Int 0) (VNum (Int a)))
  /\ (exists d, users r.1 = <[userId := d]> (users s)
                /\ forall c, counters d !! c = Some 0)
  /\ tasks r.1 = tasks s
  /\ forall u c, counter_of r.1 u c = counter_of s u c.
Proof.
  intros userId Hnone Ha r.
  destruct (getOrCreateUser_new StringToNumber s userId Hnone)
    as (s1 & user & d & Hg & Hu & Ht & Hd).
  assert (Hv : negb (truthy (VNum (Int a)))
               || le StringToNumber (VNum (Int a)) (VNum (Int 0)) = false)
    by (apply (ServerSpec.valid_amount StringToNumber _ a eq_refl); lia).
  assert (Hr : r = (s1, res_status 400
                          (Insufficient "Insufficient balance" (Int 0) (VNum (Int a))))).
  { subst r. unfold Server.spendPoints, handle. fold userId. rewrite Hv.
    rewrite (bind_Val _ _ _ _ _ Hg).
    rewrite (proj2 (Hd totalEarned)), (proj2 (Hd totalUsed)).
    unfold sub, lt, num_lt, num_sub, ToNumber.
    change (0 - 0) with 0. destruct (Z.ltb_spec 0 a); [reflexivity|lia]. }
  rewrite Hr. cbn [fst snd]. split; [reflexivity|].
  split; [exists d; split; [exact Hu|intros c; apply Hd]|]. split; [exact Ht|].
  intros u c. unfold counter_of. rewrite Hu, lookup_insert.
  case_decide; [subst u|reflexivity].
  rewrite Hnone. unfold stored. cbn. now rewrite (proj1 (Hd c)).
Qed.

Lemma spendPoints_unknown_user_witness :
  users alice_store !! default_user (Some "bob") = None
  /\ 0 < 3
  /\ (Server.spendPoints StringToNumber_int (VNum (Int 3)) (Some "bob") alice_store).2
     = res_status 400 (Insufficient "Insufficient balance" (Int 0) (VNum (Int 3))).
Proof.
  assert (H1 : users alice_store !! default_user (Some "bob") = None) by reflexivity.
  assert (H2 : 0 < 3) by lia.
  split; [exact H1|]. split; [exact H2|].
  apply (spendPoints_unknown_user StringToNumber_int alice_store 3 (Some "bob") H1 H2).
Defined.

(** ** The administrative wipe, in [src/server/index.js] *)

(** X7: whatever the collections hold, the wipe answers 200, reports -1 as
    [tasksDeleted] and as [usersDeleted] (the client's [deletedCount] for
    the empty filter, not the number of documents) and leaves both
    collections empty: the listing requested next is empty for every user,
    and the summary requested next reports 0 for every counter and both
    balances. *)
Theorem cleanup_resets (StringToNumber : string -> num) (s : Store Server.Task)
    (query_userId : option string) :
  let r := Server.cleanup s in
  r.2 = res_status 200 (Cleaned (-1) (-1))
  /\ tasks r.1 = [] /\ users r.1 = ∅
  /\ Server.listTasks query_userId r.1 = (r.1, res_status 200 (Tasks []))
  /\ exists after,
       (Server.summary StringToNumber query_userId r.1).2
       = res_status 200 (SummaryJson after)
       /\ Summary.totalEarned after = VNum (Int 0)
       /\ Summary.totalUsed after = VNum (Int 0)
       /\ Summary.balance after = Int 0
       /\ Summary.tasksCompleted after = VNum (Int 0)
       /\ Summary.timeEarned after = VNum (Int 0)
       /\ Summary.timeUsed after = VNum (Int 0)
       /\ Summary.timeBalance after = Int 0.
Proof.
  intros r. subst r.
  change (Server.cleanup s)
    with ((Store.empty : Store Server.Task),
          res_status 200 (@Cleaned Server.Task (-1) (-1))).
  cbn [fst snd]. repeat (split; [reflexivity|]).
  destruct (ServerSpec.summary_spec StringToNumber query_userId Store.empty)
    as (s' & nm & Hs & _ & _).
  eexists. rewrite Hs. repeat split.
Qed.

(** ** Tasks and the ledger, in [src/server/index.js] *)

Lemma completed_sum_app f u (l l' : list Server.Task) :
  completed_sum f u (l ++ l') = completed_sum f u l + completed_sum f u l'.
Proof.
  unfold completed_sum. induction l as [|x l IH]; [reflexivity|].
  rewrite <- app_comm_cons. cbn [foldr]. rewrite IH. lia.
Qed.

Lemma NoDup_fmap_eq {A B} (f : A -> B) (l : list A) x y :
  NoDup (f <$> l) -> x ∈ l -> y ∈ l -> f x = f y -> x = y.
Proof.
  induction l as [|z l IH]; intros Hnd Hx Hy Hf; [inversion Hx|].
  rewrite fmap_cons in Hnd. apply NoDup_cons in Hnd as [Hz Hnd].
  apply elem_of_cons in Hx as [->|Hx]; apply elem_of_cons in Hy as [->|Hy]; auto.
  - exfalso. apply Hz. rewrite Hf. now apply list_elem_of_fmap_2.
  - exfalso. apply Hz. rewrite <- Hf. now apply list_elem_of_fmap_2.
Qed.

Lemma head_filter_elem {A} (P : A -> Prop) `{!forall x, Decision (P x)} (l : list A) x :
  head (filter P l) = Some x -> P x /\ x ∈ l.
Proof.
  intros Hh. apply (list_elem_of_filter P l x).
  destruct (filter P l) as [|y l']; [discriminate|].
  injection Hh as ->. left.
Qed.

Lemma completed_sum_update f u taskId uid now task (l : list Server.Task) :
  (forall t, f (Server.set_completed now t) = f t) ->
  NoDup (doc_id <$> l) ->
  head (filter (fun t => Server._id t = taskId /\ Server.userId t = uid) l) = Some task ->
  Server.completed task = false ->
  completed_sum f u (update_first (fun t => Server._id t = taskId)
                       (Server.set_completed now) l)
  = completed_sum f u l + (if decide (uid = u) then f task else 0).
Proof.
  intros Hf Hnd Hfind Hc. induction l as [|x l IH]; [discriminate|].
  rewrite fmap_cons in Hnd. apply NoDup_cons in Hnd as [Hx Hnd].
  rewrite filter_cons in Hfind. cbn [update_first].
  destruct (decide (Server._id x = taskId)) as [Hid|Hid].
  - destruct (decide (Server._id x = taskId /\ Server.userId x = uid)) as [[_ Hu]|Hn].
    + injection Hfind as <-. cbn [completed_sum foldr].
      cbn [Server.set_completed Server.completed Server.userId].
      rewrite Hf, Hc. rewrite (decide_False (P := false = true /\ _)) by (intros [? _]; discriminate).
      rewrite Hu. destruct (decide (uid = u)) as [->|Hne].
      * rewrite decide_True by (split; reflexivity). fold (completed_sum f u l). lia.
      * rewrite decide_False by (intros [_ ?]; congruence). fold (completed_sum f u l). lia.
    + exfalso. apply head_filter_elem in Hfind as [[Hid' _] Hin].
      apply Hx. change (doc_id x) with (Server._id x). rewrite Hid, <- Hid'.
      now apply (list_elem_of_fmap_2 doc_id).
  - rewrite decide_False in Hfind by (intros [? _]; contradiction).
    cbn [completed_sum foldr]. fold (completed_sum f u l).
    fold (completed_sum f u (update_first (fun t => Server._id t = taskId)
                               (Server.set_completed now) l)).
    rewrite (IH Hnd Hfind). lia.
Qed.

(** The earned counters of every user are the sums over the completed
    tasks of that user; with the uniqueness of the keys, an invariant of
    every request. *)
Lemma app_earned (StringToNumber : string -> num) req (s : Store Server.Task) :
  keys_unique s ->
  (forall u,
      counter_of s u tasksCompleted = completed_sum (fun _ => 1) u (tasks s)
      /\ counter_of s u totalEarned
         = completed_sum (fun t => Z.max 0 (Server.reward t)) u (tasks s)
      /\ counter_of s u timeEarned
         = completed_sum (fun t => Z.max 0 (Server.timeReward t)) u (tasks s)) ->
  forall u,
    let s' := (Server.app StringToNumber req s).1 in
    counter_of s' u tasksCompleted = completed_sum (fun _ => 1) u (tasks s')
    /\ counter_of s' u totalEarned
       = completed_sum (fun t => Z.max 0 (Server.reward t)) u (tasks s')
    /\ counter_of s' u timeEarned
       = completed_sum (fun t => Z.max 0 (Server.timeReward t)) u (tasks s').
Proof.
  intros Hk Hinv u s'. subst s'. destruct (Hinv u) as (H1 & H2 & H3).
  destruct req as [q|d r tr body_userId uuid now|taskId body_userId now
                  |amount body_userId|minutes activity body_userId|query_userId|];
    cbn [Server.app].
  - auto.
  - rewrite ServerSpec.createTask_eq. cbn zeta.
    destruct (negb (truthy d)); [auto|].
    destruct (_ && _); [auto|].
    destruct (decide (uuid ∈ _)); [auto|].
    cbn [fst tasks]. rewrite !completed_sum_app. cbn [completed_sum foldr Server.completed].
    rewrite !(decide_False (P := false = true /\ _)) by (intros [? _]; discriminate).
    unfold counter_of in *. cbn [users]. repeat split; lia.
  - rewrite ServerSpec.completeTask_eq. cbn zeta.
    destruct (head _) as [task|] eqn:Hfind; [|auto].
    destruct (Server.completed task) eqn:Hc; [auto|]. cbn [fst tasks].
    rewrite !counter_of_inc, !ServerSpec.inc_total_credited.
    rewrite !(completed_sum_update _ u taskId _ now task (tasks s))
      by first [exact Hk|exact Hfind|exact Hc|intros; reflexivity].
    case_decide; repeat split; lia.
  - destruct (ServerSpec.spendPoints_cases StringToNumber amount body_userId s)
      as [Ht [[_ Hc]|(a & _ & _ & _ & Hc)]];
      rewrite Ht, !Hc, ?ServerSpec.inc_total_single;
      repeat case_decide; try discriminate; rewrite ?Z.add_0_r; auto.
  - destruct (ServerSpec.spendTime_cases StringToNumber minutes activity body_userId s)
      as [Ht [[_ Hc]|(a & _ & _ & _ & Hc)]];
      rewrite Ht, !Hc, ?ServerSpec.inc_total_single;
      repeat case_decide; try discriminate; rewrite ?Z.add_0_r; auto.
  - destruct (ServerSpec.summary_spec StringToNumber query_userId s)
      as (s' & nm & Hs & Ht & Hc).
    rewrite Hs. cbn [fst]. rewrite Ht, !Hc. auto.
  - cbn. auto.
Qed.

Lemma run_earned (StringToNumber : string -> num) reqs : forall (s : Store Server.Task),
  keys_unique s ->
  (forall u,
      counter_of s u tasksCompleted = completed_sum (fun _ => 1) u (tasks s)
      /\ counter_of s u totalEarned
         = completed_sum (fun t => Z.max 0 (Server.reward t)) u (tasks s)
      /\ counter_of s u timeEarned
         = completed_sum (fun t => Z.max 0 (Server.timeReward t)) u (tasks s)) ->
  forall u,
    let s' := Server.run StringToNumber reqs s in
    counter_of s' u tasksCompleted = completed_sum (fun _ => 1) u (tasks s')
    /\ counter_of s' u totalEarned
       = completed_sum (fun t => Z.max 0 (Server.reward t)) u (tasks s')
    /\ counter_of s' u timeEarned
       = completed_sum (fun t => Z.max 0 (Server.timeReward t)) u (tasks s').
Proof.
  induction reqs as [|req reqs IH]; intros s Hk Hinv u; [apply Hinv|].
  apply (IH (Server.app StringToNumber req s).1).
  - now apply ServerSpec.app_keys.
  - intros u'. now apply app_earned.
Qed.

(** X8: after every sequence of requests that starts from the empty
    store, the earned side of the ledger agrees with the tasks: for every
    user, [tasksCompleted] is the number of completed tasks of that user,
    [totalEarned] is the sum of their strictly positive point rewards and
    [timeEarned] the sum of their strictly positive time rewards.  So a
    task is credited once, to its owner, when it is completed, and nothing
    else credits. *)
Theorem earned_is_sum_of_completed (StringToNumber : string -> num)
    (reqs : list Server.request) (userId : string) :
  let s := Server.run StringToNumber reqs Store.empty in
  counter_of s userId tasksCompleted = completed_sum (fun _ => 1) userId (tasks s)
  /\ counter_of s userId totalEarned
     = completed_sum (fun t => Z.max 0 (Server.reward t)) userId (tasks s)
  /\ counter_of s userId timeEarned
     = completed_sum (fun t => Z.max 0 (Server.timeReward t)) userId (tasks s).
Proof.
  apply run_earned; [apply ServerSpec.empty_keys|].
  intros u. repeat split.
Qed.

(** X9: a task that [createTask] returned with 201 is in the listing
    requested next for its user exactly once, together with exactly the
    tasks that were listed before, in whatever order the listing gives
    them; it was not listed before, and the listings of the other users
    hold the same tasks as before.  A task created with an empty [userId]
    is listed for no query, since the listing reads an empty [userId] as
    'default-user'. *)
Theorem created_task_is_listed (s : Store Server.Task)
    (description reward timeReward : value) (body_userId : option string)
    (uuid now : string) (t : Server.Task) (query_userId : option string) :
  let r := Server.createTask description reward timeReward body_userId uuid now s in
  r.2 = res_status 201 (TaskJson (Some t)) ->
  Server.userId t = default_user body_userId
  /\ exists before after,
       Server.listTasks query_userId s = (s, res_status 200 (Tasks before))
       /\ Server.listTasks query_userId r.1 = (r.1, res_status 200 (Tasks after))
       /\ (t ∉ before)
       /\ (or_default_user query_userId = default_user body_userId ->
           after ≡ₚ t :: before)
       /\ (or_default_user query_userId <> default_user body_userId ->
           after ≡ₚ before)
       /\ (body_userId = Some "" -> t ∉ after).
Proof.
  intros r. subst r. rewrite ServerSpec.createTask_eq. cbn zeta.
  destruct (negb (truthy description)); [discriminate|].
  destruct (_ && _); [discriminate|].
  destruct (decide (uuid ∈ _)) as [|Hfresh]; [discriminate|].
  cbn [fst snd]. intros [= <-]. cbn [Server.userId].
  rewrite !ServerSpec.listTasks_eq. cbn [tasks snd].
  rewrite filter_app, filter_cons, filter_nil. cbn [Server.userId].
  split; [reflexivity|]. eexists _, _.
  split; [reflexivity|]. split; [reflexivity|].
  assert (Hnew : forall u,
             {| Server._id := uuid; Server.userId := default_user body_userId;
                Server.description := description;
                Server.reward := or_zero (parseInt reward);
                Server.timeReward := or_zero (parseInt timeReward);
                Server.completed := false; Server.createdAt := now;
                Server.completedAt := None |}
             ∉ filter (fun t => Server.userId t = u) (tasks s)).
  { intros u. rewrite list_elem_of_filter. intros [_ Hin]. apply Hfresh.
    now apply (list_elem_of_fmap_2 doc_id) in Hin. }
  split; [apply Hnew|]. split; [|split].
  - intros Hq. rewrite decide_True by (now symmetry).
    symmetry. apply Permutation_cons_append.
  - intros Hq. rewrite decide_False by congruence. now rewrite app_nil_r.
  - intros ->. cbn [default_user default].
    assert (Hne : "" <> or_default_user query_userId).
    { unfold or_default_user. destruct query_userId as [q|]; [|discriminate].
      case_decide; [discriminate|congruence]. }
    rewrite decide_False by exact Hne. rewrite app_nil_r. apply Hnew.
Qed.

Lemma created_task_is_listed_witness :
  let t := {| Server._id := "19af"; Server.userId := "alice";
              Server.description := VStr "Take a nap"; Server.reward := 0;
              Server.timeReward := 5; Server.completed := false;
              Server.createdAt := "2024-01-02T09:00:00.000Z";
              Server.completedAt := None |} in
  (Server.createTask (VStr "Take a nap") (VNum (Int 0)) (VNum (Int 5)) (Some "alice")
     "19af" "2024-01-02T09:00:00.000Z" alice_store).2
  = res_status 201 (TaskJson (Some t))
  /\ exists before after,
       Server.listTasks (Some "alice") alice_store
       = (alice_store, res_status 200 (Tasks before))
       /\ Server.listTasks (Some "alice") nap_store
          = (nap_store, res_status 200 (Tasks after))
       /\ (t ∉ before)
       /\ after ≡ₚ t :: before.
Proof.
  intros t.
  assert (H : (Server.createTask (VStr "Take a nap") (VNum (Int 0)) (VNum (Int 5))
                 (Some "alice") "19af" "2024-01-02T09:00:00.000Z" alice_store).2
              = res_status 201 (TaskJson (Some t))) by reflexivity.
  split; [exact H|].
  destruct (created_task_is_listed alice_store (VStr "Take a nap") (VNum (Int 0))
              (VNum (Int 5)) (Some "alice") "19af" "2024-01-02T09:00:00.000Z" t
              (Some "alice") H) as (_ & before & after & Hb & Ha & Hn & Hp & _).
  exists before, after. split; [exact Hb|]. split; [exact Ha|].
  split; [exact Hn|]. apply Hp. reflexivity.
Defined.

Lemma elem_of_update_first_or {A} (P : A -> Prop) `{!forall x, Decision (P x)}
    (set : A -> A) (l : list A) x :
  x ∈ l -> x ∈ update_first P set l \/ (P x /\ set x ∈ update_first P set l).
Proof.
  induction l as [|y l IH]; intros Hx; [inversion Hx|]. cbn [update_first].
  apply elem_of_cons in Hx as [->|Hx].
  - destruct (decide (P y)); [right; split; [assumption|left]|left; left].
  - destruct (decide (P y)); [left; now right|].
    destruct (IH Hx) as [?|[? ?]]; [left|right; split; [assumption|]]; now right.
Qed.

Lemma app_task_stable (StringToNumber : string -> num) req (s : Store Server.Task) t :
  req <> Server.DeleteCleanup ->
  keys_unique s ->
  t ∈ tasks s ->
  let s' := (Server.app StringToNumber req s).1 in
  t ∈ tasks s'
  \/ (Server.completed t = false /\ exists now, Server.set_completed now t ∈ tasks s').
Proof.
  intros Hreq Hk Hin s'. subst s'.
  destruct req as [q|d r tr body_userId uuid now|taskId body_userId now
                  |amount body_userId|minutes activity body_userId|query_userId|];
    cbn [Server.app]; try congruence.
  - now left.
  - rewrite ServerSpec.createTask_eq. cbn zeta.
    destruct (negb (truthy d)); [now left|].
    destruct (_ && _); [now left|].
    destruct (decide (uuid ∈ _)); [now left|].
    left. cbn [fst tasks]. apply elem_of_app. now left.
  - rewrite ServerSpec.completeTask_eq. cbn zeta.
    destruct (head _) as [task|] eqn:Hfind; [|now left].
    destruct (Server.completed task) eqn:Hc; [now left|]. cbn [fst tasks].
    destruct (elem_of_update_first_or (fun t => Server._id t = taskId)
                (Server.set_completed now) (tasks s) t Hin) as [?|[Hid Hset]]; [now left|].
    right. split; [|now exists now].
    apply head_filter_elem in Hfind as [[Hid' _] Hin'].
    assert (t = task) as ->; [|exact Hc].
    apply (NoDup_fmap_eq doc_id (tasks s)); try assumption.
    change (Server._id t = Server._id task). congruence.
  - destruct (ServerSpec.spendPoints_cases StringToNumber amount body_userId s) as [-> _].
    now left.
  - destruct (ServerSpec.spendTime_cases StringToNumber minutes activity body_userId s)
      as [-> _].
    now left.
  - destruct (ServerSpec.summary_spec StringToNumber query_userId s)
      as (s' & nm & Hs & Ht & _).
    rewrite Hs. cbn [fst]. rewrite Ht. now left.
Qed.

(** X10: a stored task changes only by being completed, and only once: over
    every sequence of requests without the administrative wipe, a task of
    the store is afterwards in the store either as it was or, when it was
    not completed, with [completed = true] and a [completedAt] stamp and all
    its other fields as they were.  In particular a completed task is never
    written again, and no request removes a task or edits its description,
    owner or rewards. *)
Theorem task_changes_only_by_completion (StringToNumber : string -> num)
    (reqs reqs' : list Server.request) (t : Server.Task) :
  let s := Server.run StringToNumber reqs Store.empty in
  let s' := Server.run StringToNumber reqs' s in
  Server.DeleteCleanup ∉ reqs' ->
  t ∈ tasks s ->
  t ∈ tasks s'
  \/ (Server.completed t = false /\ exists now, Server.set_completed now t ∈ tasks s').
Proof.
  intros s s' Hreqs Hin. subst s'.
  assert (Hk : keys_unique s) by apply ServerSpec.run_keys, ServerSpec.empty_keys.
  clearbody s. revert s t Hk Hin.
  induction reqs' as [|req reqs' IH]; intros s t Hk Hin; [now left|].
  apply not_elem_of_cons in Hreqs as [Hreq Hreqs].
  change (Server.run StringToNumber (req :: reqs') s)
    with (Server.run StringToNumber reqs' (Server.app StringToNumber req s).1).
  pose proof (ServerSpec.app_keys StringToNumber req s Hk) as Hk'.
  destruct (app_task_stable StringToNumber req s t (not_eq_sym Hreq) Hk Hin)
    as [Hin'|(Hc & now & Hin')].
  - now apply IH.
  - right. split; [exact Hc|].
    destruct (IH Hreqs _ _ Hk' Hin') as [?|[Hc' _]]; [now exists now|discriminate].
Qed.

Lemma task_changes_only_by_completion_witness :
  let t := {| Server._id := "7b0c"; Server.userId := "alice";
              Server.description := VStr "Read a book"; Server.reward := 10;
              Server.timeReward := 15; Server.completed := true;
              Server.createdAt := "2024-01-01T10:00:00.000Z";
              Server.completedAt := Some "2024-01-01T11:00:00.000Z" |} in
  t ∈ tasks (Server.run StringToNumber_int
               [ Server.PostComplete "7b0c" (Some "alice") "2024-01-05T11:00:00.000Z";
                 Server.PostUse (VNum (Int 4)) (Some "alice") ] alice_store).
Proof.
  intros t.
  destruct (task_changes_only_by_completion StringToNumber_int alice_requests
              [ Server.PostComplete "7b0c" (Some "alice") "2024-01-05T11:00:00.000Z";
                Server.PostUse (VNum (Int 4)) (Some "alice") ] t)
    as [Hin|[Hc _]].
  - intros H. apply elem_of_cons in H as [H|H]; [discriminate|].
    apply list_elem_of_singleton in H. discriminate.
  - vm_compute. left.
  - exact Hin.
  - discriminate.
Defined.

(** ** The keys of the tasks, in both variants *)

Lemma delete_first_none {A} (P : A -> Prop) `{!forall x, Decision (P x)} (l : list A) :
  (forall x, x ∈ l -> ~ P x) -> delete_first P l = l /\ matched P l = 0%nat.
Proof.
  intros Hn. split.
  - induction l as [|y l IH]; [reflexivity|]. cbn [delete_first].
    rewrite decide_False by (apply Hn; left).
    f_equal. apply IH. intros x Hx. apply Hn. now right.
  - unfold matched. destruct (head (filter P l)) as [x|] eqn:E; [|reflexivity].
    apply head_filter_elem in E as [Px Hx]. now destruct (Hn x Hx).
Qed.

Lemma update_first_none {A} (P : A -> Prop) `{!forall x, Decision (P x)} (set : A -> A)
    (l : list A) :
  (forall x, x ∈ l -> ~ P x) -> update_first P set l = l /\ matched P l = 0%nat.
Proof.
  intros Hn. split.
  - induction l as [|y l IH]; [reflexivity|]. cbn [update_first].
    rewrite decide_False by (apply Hn; left).
    f_equal. apply IH. intros x Hx. apply Hn. now right.
  - unfold matched. destruct (head (filter P l)) as [x|] eqn:E; [|reflexivity].
    apply head_filter_elem in E as [Px Hx]. now destruct (Hn x Hx).
Qed.

Lemma matched_some {A} (P : A -> Prop) `{!forall x, Decision (P x)} (l : list A) x :
  x ∈ l -> P x -> matched P l = 1%nat.
Proof.
  intros Hx Px. unfold matched.
  destruct (head (filter P l)) as [y|] eqn:E; [reflexivity|].
  assert (Hf : x ∈ filter P l) by now apply list_elem_of_filter.
  destruct (filter P l); [inversion Hf|discriminate].
Qed.

Lemma elem_of_delete_first_key {T} `{Document T} (k : string) (l : list T) x :
  NoDup (doc_id <$> l) ->
  x ∈ delete_first (fun t => doc_id t = k) l <-> x ∈ l /\ doc_id x <> k.
Proof.
  intros Hnd. induction l as [|y l IH].
  - cbn. split; [intros Hx; inversion Hx|intros [Hx _]; inversion Hx].
  - rewrite fmap_cons in Hnd. apply NoDup_cons in Hnd as [Hy Hnd].
    cbn [delete_first]. destruct (decide (doc_id y = k)) as [Hk|Hk].
    + split.
      * intros Hx. split; [now right|]. intros Hxk. apply Hy. rewrite Hk, <- Hxk.
        now apply list_elem_of_fmap_2.
      * intros [Hx Hxk]. apply elem_of_cons in Hx as [->|Hx]; [contradiction|assumption].
    + rewrite !elem_of_cons, (IH Hnd). split.
      * intros [->|[? ?]]; auto.
      * intros [[->|?] ?]; auto.
Qed.

Lemma api_app_keys (StringToNumber : string -> num) req (s : Store Api.Task) :
  keys_unique s -> keys_unique (Api.app StringToNumber req s).1.
Proof.
  unfold keys_unique. intros Hk.
  destruct req as [|nm r tr cat pr nt uuid now|taskId nm r tr cat pr nt now|taskId
                  |taskId body_userId now|amount body_userId now
                  |minutes activity body_userId now|query_userId now| |];
    cbn [Api.app].
  - now rewrite ApiSpec.api_listTasks_eq.
  - rewrite ApiSpec.api_createTask_eq. cbn zeta.
    destruct (negb (truthy nm)); [exact Hk|].
    destruct (decide (uuid ∈ _)) as [|Hfresh]; [exact Hk|].
    cbn [fst tasks]. rewrite fmap_app. apply NoDup_app. split; [exact Hk|].
    split; [|apply NoDup_singleton].
    intros x Hx Hx'. apply list_elem_of_singleton in Hx'. cbn in Hx'. now subst x.
  - now destruct (ApiSpec.api_updateTask_tasks StringToNumber taskId nm r tr cat pr nt now s)
      as [-> _].
  - destruct (ApiSpec.api_deleteTask_tasks taskId s) as [Hsub _].
    apply (sublist_NoDup _ (doc_id <$> tasks s)); [exact Hk|].
    now apply fmap_sublist.
  - rewrite ApiSpec.api_completeTask_eq. cbn zeta.
    destruct (head _) as [task|]; [|exact Hk].
    destruct (Api.completed task); [exact Hk|]. cbn [fst tasks].
    now rewrite update_first_ids.
  - now destruct (ApiSpec.api_spendPoints_tasks StringToNumber amount body_userId now s)
      as [-> _].
  - now destruct (ApiSpec.api_spendTime_tasks StringToNumber minutes activity body_userId
                    now s) as [-> _].
  - now destruct (ApiSpec.api_summary_tasks StringToNumber query_userId now s) as [-> _].
  - apply NoDup_nil_2.
  - exact Hk.
Qed.

(** X11: whatever identifiers [uuidv4()] returns, after every sequence of
    requests that starts from the empty store no two stored tasks have the
    same [_id], in both variants: a creation whose identifier is taken
    answers 500 and stores nothing, and no other request writes an [_id]. *)
Theorem task_ids_unique (StringToNumber : string -> num)
    (reqs : list Server.request) (api_reqs : list Api.request) :
  NoDup (Server._id <$> tasks (Server.run StringToNumber reqs Store.empty))
  /\ NoDup (Api._id <$> tasks (Api.run StringToNumber api_reqs Store.empty))
  /\ (forall uuid description reward timeReward body_userId now,
        let s := Server.run StringToNumber reqs Store.empty in
        uuid ∈ (Server._id <$> tasks s) ->
        Server.createTask description reward timeReward body_userId uuid now s
        = (s, res_status 500
                (Failure "Failed to create task"
                   "Document already exists with the given _id"))
        \/ status (Server.createTask description reward timeReward body_userId uuid
                     now s).2 = 400%nat).
Proof.
  split; [|split].
  - apply (ServerSpec.run_keys StringToNumber), ServerSpec.empty_keys.
  - assert (Hrun : forall s : Store Api.Task,
               keys_unique s -> keys_unique (Api.run StringToNumber api_reqs s)).
    { induction api_reqs as [|req api_reqs IH]; intros s Hk; [exact Hk|].
      cbn. apply IH. now apply api_app_keys. }
    apply Hrun, NoDup_nil_2.
  - intros uuid d r tr u now s Hin.
    rewrite ServerSpec.createTask_eq. cbn zeta.
    destruct (negb (truthy d)); [now right|].
    destruct (_ && _); [now right|].
    rewrite decide_True by exact Hin. now left.
Qed.

(** ** Editing and deleting tasks, in the second variant *)

(** X12: in a collection with unique keys, [deleteTask] of a stored id
    answers 200 and removes exactly the task with that id: every other task
    stays, no user record changes, and deleting the same id again answers
    404 "Task not found".  For an id that is not stored it answers 404 and
    leaves the store as it was. *)
Theorem api_deleteTask_removes (s : Store Api.Task) (taskId : string) :
  keys_unique s ->
  let r := Api.deleteTask taskId s in
  users r.1 = users s
  /\ (taskId ∈ (Api._id <$> tasks s) ->
      r.2 = res_status 200 (Message "Task deleted successfully")
      /\ (forall t, t ∈ tasks r.1 <-> t ∈ tasks s /\ Api._id t <> taskId)
      /\ Api.deleteTask taskId r.1 = (r.1, res_status 404 (Error "Task not found")))
  /\ (taskId ∉ (Api._id <$> tasks s) ->
      r = (s, res_status 404 (Error "Task not found"))).
Proof.
  intros Hk r. subst r. unfold Api.deleteTask, handle.
  erewrite bind_Val by (unfold tasks_deleteOne; reflexivity).
  split; [now destruct (_ =? _)%nat|]. split.
  - intros Hin. apply list_elem_of_fmap in Hin as (t0 & Hid & Hin).
    rewrite (matched_some _ (tasks s) t0 Hin) by (now symmetry).
    cbn [Nat.eqb mret M_ret fst snd tasks]. split; [reflexivity|].
    assert (Hdel : forall t, t ∈ delete_first (fun t => Api._id t = taskId) (tasks s)
                             <-> t ∈ tasks s /\ Api._id t <> taskId)
      by (intros t; now apply (elem_of_delete_first_key (T:=Api.Task))).
    split; [exact Hdel|].
    erewrite bind_Val by (unfold tasks_deleteOne; reflexivity). cbn [tasks users].
    destruct (delete_first_none (fun t => Api._id t = taskId)
                (delete_first (fun t => Api._id t = taskId) (tasks s))) as [Hsame Hm].
    { intros x Hx. now apply Hdel in Hx. }
    now rewrite Hsame, Hm.
  - intros Hnot.
    destruct (delete_first_none (fun t => Api._id t = taskId) (tasks s)) as [Hsame Hm].
    { intros x Hx Hid. apply Hnot. rewrite <- Hid. now apply (list_elem_of_fmap_2 Api._id). }
    rewrite Hsame, Hm. now destruct s.
Qed.

Lemma api_deleteTask_removes_witness :
  keys_unique api_nap_store
  /\ (Api.deleteTask "19af" api_nap_store).2
     = res_status 200 (Message "Task deleted successfully")
  /\ tasks (Api.deleteTask "19af" api_nap_store).1 = [].
Proof.
  assert (Hk : keys_unique api_nap_store).
  { unfold keys_unique. vm_compute. apply NoDup_singleton. }
  split; [exact Hk|]. split; [|reflexivity].
  apply (api_deleteTask_removes api_nap_store "19af" Hk).
  vm_compute. left.
Defined.

(** X13: [updateTask] answers 400 "Task name is required" without a name
    and 404 "Task not found" for an id that is not stored, and leaves the
    store as it was in both cases.  For a stored id, in a collection with
    unique keys, it answers 200 with the edited task: the name, category,
    priority and notes of the request, the rewards coerced with
    [Number(x) || 0], and an [updatedAt] stamp, while [_id], [completed],
    [createdAt] and [completedAt] are kept, also when the task is already
    completed; the other tasks and the user records stay as they were. *)
Theorem api_updateTask_edits (StringToNumber : string -> num) (s : Store Api.Task)
    (taskId : string) (name reward timeReward category priority notes : value)
    (now : string) :
  keys_unique s ->
  let r := Api.updateTask StringToNumber taskId name reward timeReward category priority
             notes now s in
  users r.1 = users s
  /\ (truthy name = false -> r = (s, res_status 400 (Error "Task name is required")))
  /\ (truthy name = true -> taskId ∉ (Api._id <$> tasks s) ->
      r = (s, res_status 404 (Error "Task not found")))
  /\ (truthy name = true ->
      forall t, t ∈ tasks s -> Api._id t = taskId ->
      exists t',
        r.2 = res_status 200 (TaskJson (Some t'))
        /\ t' ∈ tasks r.1
        /\ Api._id t' = Api._id t
        /\ Api.completed t' = Api.completed t
        /\ Api.createdAt t' = Api.createdAt t
        /\ Api.completedAt t' = Api.completedAt t
        /\ Api.updatedAt t' = Some now
        /\ Api.name t' = name
        /\ Api.reward t'
           = or_zero (ToNumber StringToNumber (Api.or_else (VNum (Int 0)) reward))
        /\ Api.timeReward t'
           = or_zero (ToNumber StringToNumber (Api.or_else (VNum (Int 0)) timeReward))
        /\ Api.category t' = Api.or_else (VStr "general") category
        /\ Api.priority t' = Api.or_else (VStr "medium") priority
        /\ Api.notes t' = Api.or_else (VStr "") notes
        /\ forall t2, t2 ∈ tasks s -> Api._id t2 <> taskId -> t2 ∈ tasks r.1).
Proof.
  intros Hk r. subst r. unfold Api.updateTask, handle. cbn zeta.
  destruct (truthy name) eqn:Hn; cbn [negb].
  2: { repeat split; try discriminate; reflexivity. }
  erewrite bind_Val by (unfold tasks_updateOne; reflexivity).
  split; [|split; [discriminate|split]].
  - destruct (_ =? _)%nat; [reflexivity|].
    erewrite bind_Val by (unfold tasks_findOne; reflexivity). reflexivity.
  - intros _ Hnot.
    match goal with |- context [update_first ?P ?f (tasks s)] =>
      destruct (update_first_none P f (tasks s)) as [Hsame Hm] end.
    { intros x Hx Hid. apply Hnot. rewrite <- Hid. now apply (list_elem_of_fmap_2 Api._id). }
    rewrite Hsame, Hm. now destruct s.
  - intros _ t Hin Hid.
    rewrite (matched_some _ (tasks s) t Hin Hid). cbn [Nat.eqb].
    erewrite bind_Val by (unfold tasks_findOne; reflexivity).
    cbn [mret M_ret fst snd tasks].
    match goal with |- context [update_first ?P ?f (tasks s)] => set (set := f) end.
    assert (Hsame : forall t2, Api._id t2 = taskId -> doc_id t2 = doc_id t)
      by (intros t2 Hid2; change (Api._id t2 = Api._id t); congruence).
    match goal with |- context [head (filter ?Q ?l)] =>
      assert (Hin' : set t ∈ l)
        by (apply elem_of_update_first; [exact Hk|exact Hin|exact Hid|exact Hsame]);
      assert (Hhead : head (filter Q l) = Some (set t))
    end.
    { apply head_filter_unique.
      - unfold keys_unique in Hk. now rewrite update_first_ids.
      - exact Hin'.
      - exact Hid.
      - exact Hsame. }
    rewrite Hhead. exists (set t). split; [reflexivity|]. split; [exact Hin'|].
    repeat (split; [reflexivity|]).
    intros t2 Hin2 Hne.
    destruct (elem_of_update_first_or (fun t => Api._id t = taskId) set (tasks s) t2 Hin2)
      as [?|[? _]]; [assumption|contradiction].
Qed.

Lemma api_updateTask_edits_witness :
  keys_unique api_nap_store
  /\ (Api.updateTask StringToNumber_int "19af" (VStr "Take a long nap") (VNum (Int 2))
        VUndefined VUndefined VUndefined VUndefined "2024-01-02T09:45:00.000Z"
        api_nap_store).1
     .(users) = users api_nap_store.
Proof.
  assert (Hk : keys_unique api_nap_store).
  { unfold keys_unique. vm_compute. apply NoDup_singleton. }
  split; [exact Hk|].
  apply (api_updateTask_edits StringToNumber_int api_nap_store "19af"
           (VStr "Take a long nap") (VNum (Int 2)) VUndefined VUndefined VUndefined
           VUndefined "2024-01-02T09:45:00.000Z" Hk).
Defined.

(** ** The balance check of the second variant *)

Lemma api_getOrCreateUser_found userId now (s : Store Api.Task) d :
  users s !! userId = Some d ->
  Api.getOrCreateUser userId now s = (s, Val d).
Proof.
  intros E. unfold Api.getOrCreateUser, users_findOne, mbind, M_bind, mret, M_ret.
  now rewrite E.
Qed.

(** X14: in the second variant, for a user whose stored record holds all
    five counters, [spendPoints] checks the balance: an amount of at most 0
    is refused with 400 "Valid amount is required", a positive amount above
    the balance with 400 "Insufficient balance", both without writing, and
    a positive amount that the balance covers answers 200 with the new
    balance and adds the amount to [totalUsed] only. *)
Theorem api_spendPoints_checked (StringToNumber : string -> num) (s : Store Api.Task)
    (a : Z) (body_userId : option string) (now : string) :
  let userId := default_user body_userId in
  full_record s userId ->
  let r := Api.spendPoints StringToNumber (VNum (Int a)) body_userId now s in
  (a <= 0 -> r = (s, res_status 400 (Error "Valid amount is required")))
  /\ (0 < a -> pointBalance s userId < a ->
      r = (s, res_status 400
                (Insufficient "Insufficient balance" (Int (pointBalance s userId))
                   (VNum (Int a)))))
  /\ (0 < a <= pointBalance s userId ->
      r.2 = res_status 200
              (Spent "Points spent successfully" (VNum (Int a))
                 (Int (pointBalance s userId - a)))
      /\ tasks r.1 = tasks s
      /\ forall u c, counter_of r.1 u c
           = counter_of s u c
             + (if decide (userId = u) then inc_total c [(totalUsed, a)] else 0)).
Proof.
  intros userId (d & Hd & Hfull) r. subst r.
  unfold Api.spendPoints, handle. fold userId.
  destruct (negb (truthy (VNum (Int a))) || le StringToNumber (VNum (Int a)) (VNum (Int 0)))
    eqn:Hv.
  { assert (~ 0 < a)
      by (rewrite <- (ServerSpec.valid_amount StringToNumber _ a eq_refl); congruence).
    split; [reflexivity|]. split; intros; lia. }
  apply (ServerSpec.valid_amount StringToNumber _ a eq_refl) in Hv.
  split; [intros; lia|].
  rewrite (bind_Val _ _ _ _ _ (api_getOrCreateUser_found userId now s d Hd)).
  destruct (Hfull totalEarned) as [e He], (Hfull totalUsed) as [u Hu].
  assert (Hb : pointBalance s userId = e - u).
  { unfold pointBalance, counter_of, stored. rewrite Hd. cbn. now rewrite He, Hu. }
  unfold field. rewrite He, Hu.
  change (sub StringToNumber (VNum (Int e)) (VNum (Int u))) with (Int (e - u)).
  rewrite Hb. unfold lt, num_lt, ToNumber.
  destruct (Z.ltb_spec (e - u) a) as [Hlt|Hge].
  - split; [reflexivity|intros; lia].
  - split; [intros; lia|]. intros _.
    erewrite bind_Val
      by (apply (users_updateOne_inc_numeric _ _ [(totalUsed, a)]);
          [reflexivity|right; rewrite Hd; eauto]).
    cbn [mret M_ret fst snd tasks]. repeat split.
    intros u' c. now rewrite counter_of_inc.
Qed.

Lemma api_spendPoints_checked_witness :
  full_record api_nap_store (default_user (Some "alice"))
  /\ Api.spendPoints StringToNumber_int (VNum (Int 15)) (Some "alice")
       "2024-01-02T10:00:00.000Z" api_nap_store
     = (api_nap_store,
        res_status 400 (Insufficient "Insufficient balance" (Int 0) (VNum (Int 15)))).
Proof.
  assert (Hf : full_record api_nap_store (default_user (Some "alice"))).
  { eexists. split; [reflexivity|]. intros c. destruct c; vm_compute; eauto. }
  split; [exact Hf|].
  apply (api_spendPoints_checked StringToNumber_int api_nap_store 15 (Some "alice")
           "2024-01-02T10:00:00.000Z" Hf); [lia|reflexivity].
Defined.

Lemma foldl_inc_field_keys inc : forall d c,
  is_Some (counters d !! c) -> is_Some (counters (foldl inc_field d inc) !! c).
Proof.
  induction inc as [|fz inc IH]; intros d c Hc; [exact Hc|].
  cbn [foldl]. apply IH. unfold inc_field. rewrite counters_set_field.
  case_decide; eauto.
Qed.

Lemma users_updateOne_inc_full {T} `{Document T} userId inc upsert (s : Store T) u :
  full_record s u -> full_record (users_updateOne_inc userId inc upsert s).1 u.
Proof.
  intros (d & Hd & Hfull). unfold users_updateOne_inc.
  destruct (mapM _ inc) as [zs|]; [|now exists d].
  destruct (users s !! userId) as [d'|] eqn:E.
  - cbn [fst]. unfold full_record. cbn [users]. rewrite lookup_insert.
    case_decide; [subst u|now exists d].
    rewrite Hd in E. injection E as <-.
    eexists. split; [reflexivity|]. intros c. now apply foldl_inc_field_keys.
  - destruct upsert; [|now exists d].
    cbn [fst]. unfold full_record. cbn [users]. rewrite lookup_insert.
    case_decide; [subst u; congruence|now exists d].
Qed.

Lemma api_getOrCreateUser_full userId now (s : Store Api.Task) :
  exists s1 user,
    Api.getOrCreateUser userId now s = (s1, Val user)
    /\ (users s !! userId = None -> full_record s1 userId)
    /\ (forall u, full_record s u -> full_record s1 u).
Proof.
  unfold Api.getOrCreateUser, users_findOne, users_insertOne, mbind, M_bind, mret, M_ret.
  cbn [Store._id].
  destruct (users s !! userId) as [d|] eqn:E; rewrite ?E.
  - exists s, d. repeat split; auto. discriminate.
  - eexists _, _. split; [reflexivity|]. split.
    + intros _. unfold full_record. cbn [users]. rewrite lookup_insert_eq.
      eexists. split; [reflexivity|]. intros c. destruct c; vm_compute; eauto.
    + intros u (d & Hd & Hfull). unfold full_record. cbn [users]. rewrite lookup_insert.
      case_decide; [subst u; congruence|now exists d].
Qed.

Lemma api_app_full (StringToNumber : string -> num) req (s : Store Api.Task) u :
  req <> Api.DeleteCleanup ->
  full_record s u -> full_record (Api.app StringToNumber req s).1 u.
Proof.
  intros Hreq Hfull.
  destruct req as [|nm r tr cat pr nt uuid now|taskId nm r tr cat pr nt now|taskId
                  |taskId body_userId now|amount body_userId now
                  |minutes activity body_userId now|query_userId now| |];
    cbn [Api.app]; try congruence.
  - now rewrite ApiSpec.api_listTasks_eq.
  - rewrite ApiSpec.api_createTask_eq. cbn zeta.
    destruct (negb (truthy nm)); [exact Hfull|].
    destruct (decide (uuid ∈ _)); exact Hfull.
  - unfold Api.updateTask, handle. cbn zeta.
    destruct (negb (truthy nm)); [exact Hfull|].
    erewrite bind_Val by (unfold tasks_updateOne; reflexivity).
    destruct (_ =? _)%nat; [exact Hfull|].
    erewrite bind_Val by (unfold tasks_findOne; reflexivity). exact Hfull.
  - unfold Api.deleteTask, handle.
    erewrite bind_Val by (unfold tasks_deleteOne; reflexivity).
    destruct (_ =? _)%nat; exact Hfull.
  - rewrite ApiSpec.api_completeTask_eq. cbn zeta.
    destruct (head _) as [task|]; [|exact Hfull].
    destruct (Api.completed task); [exact Hfull|]. cbn [fst].
    destruct Hfull as (d & Hd & Hfull).
    unfold full_record. cbn [users]. rewrite lookup_insert.
    case_decide; [subst u|now exists d].
    rewrite Hd. eexists. split; [reflexivity|].
    intros c. now apply foldl_inc_field_keys.
  - unfold Api.spendPoints, handle.
    destruct (negb _ || _); [exact Hfull|].
    destruct (api_getOrCreateUser_full (default_user body_userId) now s)
      as (s1 & user & Hg & _ & Hkeep).
    rewrite (bind_Val _ _ _ _ _ Hg).
    destruct (lt _ _ _); [now apply Hkeep|].
    pose proof (users_updateOne_inc_full (default_user body_userId)
                  [(totalUsed, amount)] false s1 u (Hkeep u Hfull)) as Hu.
    unfold mbind, M_bind.
    destruct (users_updateOne_inc _ _ _ s1) as [s2 [[]|e]]; exact Hu.
  - unfold Api.spendTime, handle.
    destruct (negb _ || _); [exact Hfull|].
    destruct (api_getOrCreateUser_full (default_user body_userId) now s)
      as (s1 & user & Hg & _ & Hkeep).
    rewrite (bind_Val _ _ _ _ _ Hg).
    destruct (lt _ _ _); [now apply Hkeep|].
    pose proof (users_updateOne_inc_full (default_user body_userId)
                  [(timeUsed, minutes)] false s1 u (Hkeep u Hfull)) as Hu.
    unfold mbind, M_bind.
    destruct (users_updateOne_inc _ _ _ s1) as [s2 [[]|e]]; exact Hu.
  - unfold Api.summary, handle.
    destruct (api_getOrCreateUser_full (or_default_user query_userId) now s)
      as (s1 & user & Hg & _ & Hkeep).
    rewrite (bind_Val _ _ _ _ _ Hg). now apply Hkeep.
  - exact Hfull.
Qed.

(** X15: in the second variant, the summary creates the record of a user
    who has none with all five counters, and a record that holds all five
    counters keeps them over every sequence of requests without the
    administrative wipe.  So for a user who was first referenced by a
    summary, the spends check the balance from then on. *)
Theorem api_full_record_kept (StringToNumber : string -> num)
    (s : Store Api.Task) (query_userId : option string) (now : string)
    (reqs : list Api.request) :
  Api.DeleteCleanup ∉ reqs ->
  let userId := or_default_user query_userId in
  let s1 := (Api.summary StringToNumber query_userId now s).1 in
  (users s !! userId = None \/ full_record s userId) ->
  full_record s1 userId
  /\ full_record (Api.run StringToNumber reqs s1) userId.
Proof.
  intros Hreqs userId s1 Hs.
  assert (H1 : full_record s1 userId).
  { subst s1. unfold Api.summary, handle. fold userId.
    destruct (api_getOrCreateUser_full userId now s) as (s' & user & Hg & Hnew & Hkeep).
    rewrite (bind_Val _ _ _ _ _ Hg). cbn [mret M_ret fst]. destruct Hs; auto. }
  split; [exact H1|]. clearbody s1. clear Hs.
  revert s1 H1. induction reqs as [|req reqs IH]; intros s1 H1; [exact H1|].
  apply not_elem_of_cons in Hreqs as [Hreq Hreqs].
  change (Api.run StringToNumber (req :: reqs) s1)
    with (Api.run StringToNumber reqs (Api.app StringToNumber req s1).1).
  apply (IH Hreqs). now apply api_app_full.
Qed.

Lemma api_full_record_kept_witness :
  full_record
    (Api.run StringToNumber_int
       [ Api.PostComplete "19af" (Some "bob") "2024-01-02T10:00:00.000Z" ]
       (Api.summary StringToNumber_int (Some "bob") "2024-01-02T09:50:00.000Z"
          api_nap_store).1)
    "bob".
Proof.
  apply (api_full_record_kept StringToNumber_int api_nap_store (Some "bob")
           "2024-01-02T09:50:00.000Z"
           [ Api.PostComplete "19af" (Some "bob") "2024-01-02T10:00:00.000Z" ]).
  - intros H. apply list_elem_of_singleton in H. discriminate.
  - left. reflexivity.
Defined.

(** ** Who can complete a task *)

Lemma head_filter_none {A} (P : A -> Prop) `{!forall x, Decision (P x)} (l : list A) :
  (forall x, x ∈ l -> ~ P x) -> head (filter P l) = None.
Proof.
  intros Hn. destruct (head (filter P l)) as [x|] eqn:E; [|reflexivity].
  apply head_filter_elem in E as [Px Hx]. now destruct (Hn x Hx).
Qed.

(** X16: in [src/server/index.js], after every sequence of requests, a
    completion requested for a user who does not own the task answers 404
    "Task not found" and writes nothing, whether the task is completed or
    not.  A task stored with an empty [userId] has no such user: completing
    it answers 404 for every [userId] of the body, because an empty
    [userId] is read as 'default-user'. *)
Theorem completeTask_only_by_owner (StringToNumber : string -> num)
    (reqs : list Server.request) (t : Server.Task) (body_userId : option string)
    (now : string) :
  let s := Server.run StringToNumber reqs Store.empty in
  t ∈ tasks s ->
  Server.userId t <> or_default_user body_userId \/ Server.userId t = "" ->
  Server.completeTask (Server._id t) body_userId now s
  = (s, res_status 404 (Error "Task not found")).
Proof.
  intros s Hin Hu.
  assert (Hk : keys_unique s) by apply ServerSpec.run_keys, ServerSpec.empty_keys.
  assert (Hne : Server.userId t <> or_default_user body_userId).
  { destruct Hu as [?|He]; [assumption|]. rewrite He. unfold or_default_user.
    destruct body_userId as [u|]; [|discriminate].
    case_decide; [discriminate|congruence]. }
  rewrite ServerSpec.completeTask_eq. cbn zeta.
  rewrite head_filter_none; [reflexivity|].
  intros x Hx [Hid Hux]. apply Hne. rewrite <- Hux. f_equal. symmetry.
  now apply (NoDup_fmap_eq doc_id (tasks s)).
Qed.

Lemma completeTask_only_by_owner_witness :
  let s := Server.run StringToNumber_int
             [ Server.PostTask (VStr "Water the plants") (VNum (Int 3)) VUndefined
                 (Some "") "55aa" "2024-01-04T08:00:00.000Z" ] Store.empty in
  Server.completeTask "55aa" (Some "") "2024-01-04T09:00:00.000Z" s
  = (s, res_status 404 (Error "Task not found")).
Proof.
  intros s.
  apply (completeTask_only_by_owner StringToNumber_int
           [ Server.PostTask (VStr "Water the plants") (VNum (Int 3)) VUndefined
               (Some "") "55aa" "2024-01-04T08:00:00.000Z" ]
           {| Server._id := "55aa"; Server.userId := "";
              Server.description := VStr "Water the plants"; Server.reward := 3;
              Server.timeReward := 0; Server.completed := false;
              Server.createdAt := "2024-01-04T08:00:00.000Z";
              Server.completedAt := None |}
           (Some "") "2024-01-04T09:00:00.000Z").
  - vm_compute. left.
  - right. reflexivity.
Defined.

(** X17: in the second variant a task has no owner: in a collection with
    unique keys, the first completion of a stored task that is not
    completed answers 200 with the completed task for whichever user the
    body names, and credits that user: [tasksCompleted] grows by 1 and each
    earned counter by the reward when it is strictly positive, while the
    records of the other users stay as they were.  After it, a completion
    of the same id answers 400 "Task already completed" for every user. *)
Theorem api_completeTask_once (s : Store Api.Task) (t : Api.Task)
    (body_userId body_userId' : option string) (now now' : string) :
  let userId := default_user body_userId in
  keys_unique s ->
  t ∈ tasks s ->
  Api.completed t = false ->
  let r := Api.completeTask (Api._id t) body_userId now s in
  r.2 = res_status 200 (TaskJson (Some (Api.set_completed now t)))
  /\ counter_of r.1 userId tasksCompleted = counter_of s userId tasksCompleted + 1
  /\ counter_of r.1 userId totalEarned
     = counter_of s userId totalEarned + Z.max 0 (Api.reward t)
  /\ counter_of r.1 userId timeEarned
     = counter_of s userId timeEarned + Z.max 0 (Api.timeReward t)
  /\ (forall u, u <> userId -> users r.1 !! u = users s !! u)
  /\ Api.completeTask (Api._id t) body_userId' now' r.1
     = (r.1, res_status 400 (Error "Task already completed")).
Proof.
  intros userId Hk Hin Hc r.
  assert (Hsame : forall t', Api._id t' = Api._id t -> doc_id t' = doc_id t)
    by (intros t' H; exact H).
  assert (Hfind : head (filter (fun t' => Api._id t' = Api._id t) (tasks s)) = Some t)
    by (apply head_filter_unique; [exact Hk|exact Hin|reflexivity|exact Hsame]).
  assert (Hfind' : head (filter (fun t' => Api._id t' = Api._id t)
                           (update_first (fun t' => Api._id t' = Api._id t)
                              (Api.set_completed now) (tasks s)))
                   = Some (Api.set_completed now t)).
  { apply head_filter_unique.
    - unfold keys_unique in Hk. now rewrite update_first_ids.
    - apply elem_of_update_first; [exact Hk|exact Hin|reflexivity|exact Hsame].
    - reflexivity.
    - exact Hsame. }
  assert (Hr : r = ({| users := <[userId := foldl inc_field
                                   (upserted userId (users s !! userId))
                                   (credited (Api.reward t) (Api.timeReward t))]>
                                  (users s);
                       tasks := update_first (fun t' => Api._id t' = Api._id t)
                                  (Api.set_completed now) (tasks s) |},
                    res_status 200 (TaskJson (Some (Api.set_completed now t))))).
  { subst r. rewrite ApiSpec.api_completeTask_eq. cbn zeta. fold userId.
    rewrite Hfind, Hc. now rewrite Hfind'. }
  rewrite Hr. cbn [fst snd]. split; [reflexivity|].
  rewrite !counter_of_inc, !ServerSpec.inc_total_credited, !decide_True by reflexivity.
  repeat (split; [lia|]). split.
  - intros u Hu. cbn [users]. now rewrite lookup_insert_ne by congruence.
  - rewrite ApiSpec.api_completeTask_eq. cbn zeta. cbn [tasks].
    now rewrite Hfind'.
Qed.

Lemma api_completeTask_once_witness :
  keys_unique api_nap_store
  /\ (Api.completeTask "19af" (Some "carol") "2024-01-02T10:00:00.000Z" api_nap_store).2
     = res_status 200
         (TaskJson
            (Some {| Api._id := "19af"; Api.name := VStr "Take a nap"; Api.reward := 0;
                     Api.timeReward := 5; Api.category := VStr "general";
                     Api.priority := VStr "medium"; Api.notes := VStr "";
                     Api.completed := true;
                     Api.createdAt := "2024-01-02T09:00:00.000Z";
                     Api.completedAt := Some "2024-01-02T10:00:00.000Z";
                     Api.updatedAt := None |})).
Proof.
  assert (Hk : keys_unique api_nap_store).
  { unfold keys_unique. vm_compute. apply NoDup_singleton. }
  split; [exact Hk|].
  apply (api_completeTask_once api_nap_store
           {| Api._id := "19af"; Api.name := VStr "Take a nap"; Api.reward := 0;
              Api.timeReward := 5; Api.category := VStr "general";
              Api.priority := VStr "medium"; Api.notes := VStr "";
              Api.completed := false;
              Api.createdAt := "2024-01-02T09:00:00.000Z";
              Api.completedAt := None; Api.updatedAt := None |}
           (Some "carol") None "2024-01-02T10:00:00.000Z" "2024-01-02T10:05:00.000Z" Hk).
  - vm_compute. left.
  - reflexivity.
Defined.
